(** * RancherResourceScanner: the discovery-and-scan engine of [pkg/k8s/k8s.go]

    A shallow embedding of the scan engine and of its two health checks,
    together with the properties the specification states about them.

    The cluster is reached through two client objects, as in the source: the
    typed [*kubernetes.Clientset] (discovery and namespace listing) and the
    generic [dynamic.Interface] (list and get of arbitrary objects).  Both are
    records of response functions here.  Every request sent to the cluster and
    every line logged at the levels the logger always emits (Error, Info) is
    recorded, in order, in a trace; Debug lines, which [logging.SetupLogging]
    drops unless DEBUG=true, are not part of the trace. *)

From Stdlib Require Import List Ascii String Bool Arith ZArith Lia Permutation DecimalString.
Import ListNotations.
Open Scope string_scope.

Set Implicit Arguments.

(** ** Go values *)

(** A Go [error]: its message, and whether it is the
    [*discovery.ErrGroupDiscoveryFailed] that the discovery client returns,
    next to the groups it could read, when some API groups fail. *)
Module error.
Record t : Type := mk {
  Error : string;
  IsGroupDiscoveryFailedError : bool
}.
End error.

(** [fmt.Errorf(prefix + "%v", err)]: a fresh error, not a discovery one. *)
Definition Errorf (prefix : string) (err : error.t) : error.t :=
  error.mk (prefix ++ error.Error err) false.

(** A call that returns [(T, error)] with a meaningful value only when the
    error is nil. *)
Definition result (T : Type) : Type := (T + error.t)%type.

Definition succeeds {T : Type} (r : result T) : bool :=
  match r with inl _ => true | inr _ => false end.

Definition newline : string := String (Ascii.ascii_of_nat 10) "".

(** [%d] of a length. *)
Definition fmt_d (n : nat) : string := NilZero.string_of_uint (Nat.to_uint n).

(** [%v] of a [[]string]: the elements between brackets, separated by spaces. *)
Definition fmt_v_strings (l : list string) : string :=
  "[" ++ String.concat " " l ++ "]".

(** ** Types of [k8s.io/apimachinery] and [k8s.io/client-go] used by the scan *)

Module GroupVersion.
Record t : Type := mk { Group : string; Version : string }.
End GroupVersion.

Module GroupVersionResource.
Record t : Type := mk { Group : string; Version : string; Resource : string }.

(** [gvr.GroupVersion()] *)
Definition GroupVersion (gvr : t) : GroupVersion.t :=
  GroupVersion.mk (Group gvr) (Version gvr).
End GroupVersionResource.

(** [gv.WithResource(resource)] *)
Definition WithResource (gv : GroupVersion.t) (resource : string)
  : GroupVersionResource.t :=
  GroupVersionResource.mk (GroupVersion.Group gv) (GroupVersion.Version gv) resource.

(** The fields of [metav1.APIResource] that the scan reads. *)
Module APIResource.
Record t : Type := mk {
  Name : string;
  Namespaced : bool;
  Verbs : list string
}.
End APIResource.

Module APIResourceList.
Record t : Type := mk {
  GroupVersion : string;
  APIResources : list APIResource.t
}.
End APIResourceList.

Module OwnerReference.
Record t : Type := mk {
  APIVersion : string;
  Kind : string;
  Name : string;
  UID : string
}.
End OwnerReference.

(** A [metav1.Time], kept as the text [%v] prints for it. *)
Module Time.
Record t : Type := mk { String : string }.
End Time.

(** An [unstructured.Unstructured] object, seen through the accessors the
    checks call.  A missing field reads as the zero value: the empty string,
    the empty list, or [None] for the nil deletion timestamp. *)
Module Unstructured.
Record t : Type := mk {
  GetNamespace : string;
  GetName : string;
  GetKind : string;
  GetFinalizers : list string;
  GetDeletionTimestamp : option Time.t;
  GetOwnerReferences : list OwnerReference.t
}.
End Unstructured.

(** [%v] of a [*metav1.Time]. *)
Definition fmt_v_time (t : option Time.t) : string :=
  match t with
  | Some t => Time.String t
  | None => "<nil>"
  end.

(** The two functions of package [schema] (apimachinery) that the scan calls
    on group/version strings.  The scan is written against this interface;
    [apimachinery] below is the library's behaviour. *)
Class Schema : Type := {
  ParseGroupVersion : string -> result GroupVersion.t;
  GroupVersion_String : GroupVersion.t -> string
}.

(** A [corev1.Namespace], of which only the name is read. *)
Module Namespace.
Record t : Type := mk { GetName : string }.
End Namespace.

(** The typed client.  The discovery calls return the lists they could read
    together with an error, as [ServerPreferredResources] does on a partial
    failure. *)
Module Clientset.
Record t : Type := mk {
  ServerPreferredNamespacedResources : list APIResourceList.t * option error.t;
  ServerPreferredResources : list APIResourceList.t * option error.t;
  NamespacesList : result (list Namespace.t)
}.
End Clientset.

(** The dynamic client: [Resource(r).Namespace(ns).List] (the items of the
    returned list) and [Resource(r).Namespace(ns).Get]. *)
Module dynamic.
Record Interface : Type := mk {
  List : GroupVersionResource.t -> string -> result (list Unstructured.t);
  Get : GroupVersionResource.t -> string -> string -> result Unstructured.t
}.
End dynamic.

(** ** The trace of a run *)

Inductive Event : Type :=
| ReqServerPreferredNamespacedResources
| ReqServerPreferredResources
| ReqNamespacesList
| ReqList (resource : GroupVersionResource.t) (ns : string)
| ReqGet (resource : GroupVersionResource.t) (ns name : string)
| Printf (line : string)
| LogError (line : string)
| LogInfo (line : string).

(** A computation that appends to the trace and returns a value. *)
Definition M (A : Type) : Type := (list Event * A)%type.

Definition ret {A : Type} (a : A) : M A := ([], a).

Definition bind {A B : Type} (m : M A) (k : A -> M B) : M B :=
  let (t1, a) := m in
  let (t2, b) := k a in
  ((t1 ++ t2)%list, b).

Definition emit (e : Event) : M unit := ([e], tt).

Definition trace {A : Type} (m : M A) : list Event := fst m.
Definition value {A : Type} (m : M A) : A := snd m.

Declare Scope scan_scope.
Delimit Scope scan_scope with scan.
Notation "x <- m ;; k" := (bind m (fun x => k))
  (at level 61, m at next level, right associativity) : scan_scope.
Notation "m ;;; k" := (bind m (fun _ => k))
  (at level 61, right associativity) : scan_scope.
Open Scope scan_scope.

Module log.
Definition Errorf (line : string) : M unit := emit (LogError line).
Definition Infof (line : string) : M unit := emit (LogInfo line).
End log.

(** The client calls, each recorded in the trace. *)
Definition call_ServerPreferredNamespacedResources (clientset : Clientset.t)
  : M (list APIResourceList.t * option error.t) :=
  emit ReqServerPreferredNamespacedResources ;;;
  ret (Clientset.ServerPreferredNamespacedResources clientset).

Definition call_ServerPreferredResources (clientset : Clientset.t)
  : M (list APIResourceList.t * option error.t) :=
  emit ReqServerPreferredResources ;;;
  ret (Clientset.ServerPreferredResources clientset).

Definition call_NamespacesList (clientset : Clientset.t)
  : M (result (list Namespace.t)) :=
  emit ReqNamespacesList ;;; ret (Clientset.NamespacesList clientset).

Definition call_List (dynamicClient : dynamic.Interface)
    (resource : GroupVersionResource.t) (ns : string)
  : M (result (list Unstructured.t)) :=
  emit (ReqList resource ns) ;;; ret (dynamic.List dynamicClient resource ns).

Definition call_Get (dynamicClient : dynamic.Interface)
    (resource : GroupVersionResource.t) (ns name : string)
  : M (result Unstructured.t) :=
  emit (ReqGet resource ns name) ;;;
  ret (dynamic.Get dynamicClient resource ns name).

(** ** Package [k8s] *)

Record ResourceCheckResult : Type := mkResult {
  Namespace : string;
  Resource : string;
  Name : string;
  Issue : string;
  AdditionalInfo : string
}.

(** [CheckStuckFinalizers]: no request, and only Debug lines, so a function. *)
Definition CheckStuckFinalizers (obj : Unstructured.t) : list ResourceCheckResult :=
  let results : list ResourceCheckResult := [] in
  if (0 <? List.length (Unstructured.GetFinalizers obj))%nat
     && (match Unstructured.GetDeletionTimestamp obj with
         | Some _ => true
         | None => false
         end)
  then
    app results [ {| Namespace := Unstructured.GetNamespace obj;
                    Resource := Unstructured.GetKind obj;
                    Name := Unstructured.GetName obj;
                    Issue := "Stuck finalizer";
                    AdditionalInfo :=
                      "Finalizers: "
                      ++ fmt_v_strings (Unstructured.GetFinalizers obj)
                      ++ ", DeletionTimestamp: "
                      ++ fmt_v_time (Unstructured.GetDeletionTimestamp obj) |} ]
  else results.

Section WithSchema.
Context {schema : Schema}.

(** [OwnerExists] *)
Definition OwnerExists (dynamicClient : dynamic.Interface)
    (owner : OwnerReference.t) (namespace : string) : M bool :=
  match ParseGroupVersion (OwnerReference.APIVersion owner) with
  | inr err =>
      log.Errorf ("Error parsing OwnerReference APIVersion: " ++ error.Error err) ;;;
      ret false
  | inl gv =>
      let resource :=
        {| GroupVersionResource.Group := GroupVersion.Group gv;
           GroupVersionResource.Version := GroupVersion.Version gv;
           GroupVersionResource.Resource := OwnerReference.Kind owner |} in
      r <- call_Get dynamicClient resource namespace (OwnerReference.Name owner) ;;
      ret (succeeds r)
  end.

(** The finding [CheckInvalidOwnerReferences] appends for a dangling owner. *)
Definition invalidOwnerResult (obj : Unstructured.t) (owner : OwnerReference.t)
  : ResourceCheckResult :=
  {| Namespace := Unstructured.GetNamespace obj;
     Resource := Unstructured.GetKind obj;
     Name := Unstructured.GetName obj;
     Issue := "Invalid ownerReference";
     AdditionalInfo :=
       "OwnerReference: APIVersion=" ++ OwnerReference.APIVersion owner
       ++ ", Kind=" ++ OwnerReference.Kind owner
       ++ ", Name=" ++ OwnerReference.Name owner
       ++ ", UID=" ++ OwnerReference.UID owner |}.

(** The loop of [CheckInvalidOwnerReferences] over the owner references still
    to visit, with the results gathered so far. *)
Fixpoint CheckInvalidOwnerReferences_loop (dynamicClient : dynamic.Interface)
    (obj : Unstructured.t) (namespace : string)
    (owners : list OwnerReference.t) (results : list ResourceCheckResult)
  : M (list ResourceCheckResult) :=
  match owners with
  | [] => ret results
  | owner :: rest =>
      ok <- OwnerExists dynamicClient owner namespace ;;
      if negb ok
      then CheckInvalidOwnerReferences_loop dynamicClient obj namespace rest
             (app results [invalidOwnerResult obj owner])
      else CheckInvalidOwnerReferences_loop dynamicClient obj namespace rest results
  end.

(** [CheckInvalidOwnerReferences] *)
Definition CheckInvalidOwnerReferences (dynamicClient : dynamic.Interface)
    (obj : Unstructured.t) (namespace : string) : M (list ResourceCheckResult) :=
  CheckInvalidOwnerReferences_loop dynamicClient obj namespace
    (Unstructured.GetOwnerReferences obj) [].

(** [GetNamespaces] *)
Definition GetNamespaces (clientset : Clientset.t) : M (result (list string)) :=
  r <- call_NamespacesList clientset ;;
  match r with
  | inr err => ret (inr err)
  | inl items => ret (inl (map Namespace.GetName items))
  end.

(** The inner loop of [GetNamespaceScopedResources], over the resources of one
    group/version. *)
Fixpoint GetNamespaceScopedResources_inner (groupVersion : GroupVersion.t)
    (apiResources : list APIResource.t) (resources : list GroupVersionResource.t)
  : list GroupVersionResource.t :=
  match apiResources with
  | [] => resources
  | apiResource :: rest =>
      if APIResource.Namespaced apiResource
      then GetNamespaceScopedResources_inner groupVersion rest
             (app resources [WithResource groupVersion (APIResource.Name apiResource)])
      else GetNamespaceScopedResources_inner groupVersion rest resources
  end.

(** The outer loop of [GetNamespaceScopedResources]; a group/version string
    that does not parse ends the function with an error. *)
Fixpoint GetNamespaceScopedResources_loop (apiResourceLists : list APIResourceList.t)
    (resources : list GroupVersionResource.t)
  : result (list GroupVersionResource.t) :=
  match apiResourceLists with
  | [] => inl resources
  | apiResourceList :: rest =>
      match ParseGroupVersion (APIResourceList.GroupVersion apiResourceList) with
      | inr err =>
          inr (Errorf ("error parsing GroupVersion "
                       ++ APIResourceList.GroupVersion apiResourceList ++ ": ") err)
      | inl groupVersion =>
          GetNamespaceScopedResources_loop rest
            (GetNamespaceScopedResources_inner groupVersion
               (APIResourceList.APIResources apiResourceList) resources)
      end
  end.

(** [GetNamespaceScopedResources] *)
Definition GetNamespaceScopedResources (clientset : Clientset.t)
  : M (result (list GroupVersionResource.t)) :=
  r <- call_ServerPreferredNamespacedResources clientset ;;
  let (apiResourceLists, err) := r in
  match err with
  | Some err =>
      if error.IsGroupDiscoveryFailedError err
      then
        emit (Printf ("Partial discovery error: " ++ error.Error err ++ newline)) ;;;
        ret (GetNamespaceScopedResources_loop apiResourceLists [])
      else ret (inr (Errorf "error fetching namespaced resources: " err))
  | None => ret (GetNamespaceScopedResources_loop apiResourceLists [])
  end.

(** [GetNamespaceObjects]; the [apiVersion] argument is not used by the body. *)
Definition GetNamespaceObjects (dynamicClient : dynamic.Interface) (ns : string)
    (resource : GroupVersionResource.t) (apiVersion : string)
  : M (result (list string)) :=
  r <- call_List dynamicClient resource ns ;;
  match r with
  | inr err =>
      ret (inr (Errorf ("error listing objects for resource "
                        ++ GroupVersionResource.Resource resource
                        ++ " in namespace " ++ ns ++ ": ") err))
  | inl items => ret (inl (map Unstructured.GetName items))
  end.

(** The three loops of [resourceSupportsList], innermost first.  The loop over
    the resources of a list answers [Some b] when it returns [b] and [None]
    when it ends without a return. *)
Fixpoint resourceSupportsList_verbs (verbs : list string) : bool :=
  match verbs with
  | [] => false
  | verb :: rest => if verb =? "list" then true else resourceSupportsList_verbs rest
  end.

Fixpoint resourceSupportsList_resources (resource : GroupVersionResource.t)
    (apiResources : list APIResource.t) : option bool :=
  match apiResources with
  | [] => None
  | apiResource :: rest =>
      if APIResource.Name apiResource =? GroupVersionResource.Resource resource
      then Some (resourceSupportsList_verbs (APIResource.Verbs apiResource))
      else resourceSupportsList_resources resource rest
  end.

Fixpoint resourceSupportsList_lists (resource : GroupVersionResource.t)
    (apiResourceLists : list APIResourceList.t) : bool :=
  match apiResourceLists with
  | [] => false
  | apiResourceList :: rest =>
      if APIResourceList.GroupVersion apiResourceList
         =? GroupVersion_String (GroupVersionResource.GroupVersion resource)
      then
        match resourceSupportsList_resources resource
                (APIResourceList.APIResources apiResourceList) with
        | Some b => b
        | None => resourceSupportsList_lists resource rest
        end
      else resourceSupportsList_lists resource rest
  end.

(** [resourceSupportsList] *)
Definition resourceSupportsList (clientset : Clientset.t)
    (resource : GroupVersionResource.t) : M bool :=
  r <- call_ServerPreferredResources clientset ;;
  let (apiResourceLists, err) := r in
  match err with
  | Some err =>
      log.Errorf ("Error fetching API resources to check for 'list' support: "
                  ++ error.Error err) ;;;
      ret false
  | None => ret (resourceSupportsList_lists resource apiResourceLists)
  end.

(** The loops of [ScanNamespaceResources], innermost first; each takes the
    results gathered so far and returns them extended. *)
Fixpoint ScanNamespaceResources_objects (dynamicClient : dynamic.Interface)
    (ns : string) (resource : GroupVersionResource.t)
    (objects : list string) (results : list ResourceCheckResult)
  : M (list ResourceCheckResult) :=
  match objects with
  | [] => ret results
  | objectName :: rest =>
      r <- call_Get dynamicClient resource ns objectName ;;
      match r with
      | inr err =>
          log.Errorf ("Error fetching object " ++ ns ++ "/" ++ objectName
                      ++ " of resource " ++ GroupVersionResource.Resource resource
                      ++ ": " ++ error.Error err) ;;;
          ScanNamespaceResources_objects dynamicClient ns resource rest results
      | inl obj =>
          let finalizerIssues := CheckStuckFinalizers obj in
          (if (0 <? List.length finalizerIssues)%nat
           then log.Errorf ("Critical issue: Detected "
                            ++ fmt_d (List.length finalizerIssues)
                            ++ " stuck finalizers for object: "
                            ++ ns ++ "/" ++ objectName)
           else ret tt) ;;;
          let results := app results finalizerIssues in
          ownerRefIssues <- CheckInvalidOwnerReferences dynamicClient obj ns ;;
          results <-
            (if (0 <? List.length ownerRefIssues)%nat
             then
               log.Errorf ("Critical issue: Detected "
                           ++ fmt_d (List.length ownerRefIssues)
                           ++ " invalid ownerReferences for object: "
                           ++ ns ++ "/" ++ objectName) ;;;
               ret (app results ownerRefIssues)
             else ret results) ;;
          ScanNamespaceResources_objects dynamicClient ns resource rest results
      end
  end.

Fixpoint ScanNamespaceResources_resources (clientset : Clientset.t)
    (dynamicClient : dynamic.Interface) (ns : string)
    (resources : list GroupVersionResource.t) (results : list ResourceCheckResult)
  : M (list ResourceCheckResult) :=
  match resources with
  | [] => ret results
  | resource :: rest =>
      supported <- resourceSupportsList clientset resource ;;
      if negb supported
      then ScanNamespaceResources_resources clientset dynamicClient ns rest results
      else
        o <- GetNamespaceObjects dynamicClient ns resource
               (GroupVersion_String (GroupVersionResource.GroupVersion resource)) ;;
        match o with
        | inr err =>
            log.Errorf ("Error fetching objects for resource "
                        ++ GroupVersionResource.Resource resource
                        ++ " in namespace " ++ ns ++ ": " ++ error.Error err) ;;;
            ScanNamespaceResources_resources clientset dynamicClient ns rest results
        | inl objects =>
            results <- ScanNamespaceResources_objects dynamicClient ns resource
                         objects results ;;
            ScanNamespaceResources_resources clientset dynamicClient ns rest results
        end
  end.

Fixpoint ScanNamespaceResources_namespaces (clientset : Clientset.t)
    (dynamicClient : dynamic.Interface)
    (resources : list GroupVersionResource.t)
    (namespaces : list string) (results : list ResourceCheckResult)
  : M (list ResourceCheckResult) :=
  match namespaces with
  | [] => ret results
  | ns :: rest =>
      results <- ScanNamespaceResources_resources clientset dynamicClient ns
                   resources results ;;
      ScanNamespaceResources_namespaces clientset dynamicClient resources rest results
  end.

(** [ScanNamespaceResources]: the findings and the error, [None] for nil.  The
    nil slice returned with an error is the empty list. *)
Definition ScanNamespaceResources (clientset : Clientset.t)
    (dynamicClient : dynamic.Interface)
  : M (list ResourceCheckResult * option error.t) :=
  let results : list ResourceCheckResult := [] in
  r <- GetNamespaceScopedResources clientset ;;
  match r with
  | inr err =>
      log.Errorf ("Error fetching namespace-scoped resources: " ++ error.Error err) ;;;
      ret ([], Some err)
  | inl resources =>
      n <- GetNamespaces clientset ;;
      match n with
      | inr err =>
          log.Errorf ("Error fetching namespaces: " ++ error.Error err) ;;;
          ret ([], Some err)
      | inl namespaces =>
          results <- ScanNamespaceResources_namespaces clientset dynamicClient
                       resources namespaces results ;;
          log.Infof ("Scanning completed: Found " ++ fmt_d (List.length results)
                     ++ " issues") ;;;
          ret (results, None)
      end
  end.

End WithSchema.

(** ** The [schema] functions of apimachinery

    [ParseGroupVersion] accepts the empty string and "/" as the empty
    group/version, a string without "/" as a version of the core group, a
    string with one "/" as group and version, and refuses any other string.
    [GroupVersion.String] prints the version alone for the core group. *)

Fixpoint count_slash (s : string) : nat :=
  match s with
  | EmptyString => 0
  | String c rest =>
      if Ascii.eqb c "/"%char then S (count_slash rest) else count_slash rest
  end.

(** The text before the first "/" and the text after it. *)
Fixpoint cut_slash (s : string) : string * string :=
  match s with
  | EmptyString => ("", "")
  | String c rest =>
      if Ascii.eqb c "/"%char then ("", rest)
      else let (before, after) := cut_slash rest in (String c before, after)
  end.

Definition apimachinery_ParseGroupVersion (gv : string) : result GroupVersion.t :=
  if (String.length gv =? 0)%nat || (gv =? "/")
  then inl (GroupVersion.mk "" "")
  else
    match count_slash gv with
    | 0 => inl (GroupVersion.mk "" gv)
    | 1 => let (group, version) := cut_slash gv in
           inl (GroupVersion.mk group version)
    | _ => inr (error.mk ("unexpected GroupVersion string: " ++ gv) false)
    end.

Definition apimachinery_GroupVersion_String (gv : GroupVersion.t) : string :=
  if (0 <? String.length (GroupVersion.Group gv))%nat
  then GroupVersion.Group gv ++ "/" ++ GroupVersion.Version gv
  else GroupVersion.Version gv.

Definition apimachinery : Schema :=
  {| ParseGroupVersion := apimachinery_ParseGroupVersion;
     GroupVersion_String := apimachinery_GroupVersion_String |}.

(** ** A small cluster

    Namespace [app] holds two pods and a replica set.  Pod [p1] is being
    deleted and still carries a finalizer; pod [p2] is healthy; replica set
    [rs1] names a deployment [d1] as its owner, and no such object can be
    fetched.  Discovery reports the core group and [apps/v1]. *)

Definition pods : GroupVersionResource.t := GroupVersionResource.mk "" "v1" "pods".
Definition replicasets : GroupVersionResource.t :=
  GroupVersionResource.mk "apps" "v1" "replicasets".

Definition d1_ref : OwnerReference.t := OwnerReference.mk "apps/v1" "Deployment" "d1" "X".

Definition p1 : Unstructured.t :=
  Unstructured.mk "app" "p1" "Pod" ["a.io/cleanup"]
    (Some (Time.mk "2024-05-01 10:00:00 +0000 UTC")) [].
Definition p2 : Unstructured.t := Unstructured.mk "app" "p2" "Pod" [] None [].
Definition rs1 : Unstructured.t :=
  Unstructured.mk "app" "rs1" "ReplicaSet" [] None [d1_ref].

(** A config map that names three owners, none of which can be fetched; the
    apiVersion of the second does not even parse. *)
Definition orphan : Unstructured.t :=
  Unstructured.mk "app" "cm1" "ConfigMap" [] None
    [ d1_ref;
      OwnerReference.mk "a/b/c" "Widget" "w1" "Y";
      OwnerReference.mk "v1" "Service" "s1" "Z" ].

Definition not_found : error.t := error.mk "not found" false.

Definition sample_dynamic : dynamic.Interface :=
  {| dynamic.List := fun resource ns =>
       if (GroupVersionResource.Resource resource =? "pods") && (ns =? "app")
       then inl [p1; p2]
       else if (GroupVersionResource.Resource resource =? "replicasets") && (ns =? "app")
       then inl [rs1]
       else inl [];
     dynamic.Get := fun resource ns name =>
       if (GroupVersionResource.Resource resource =? "pods") && (ns =? "app")
       then if name =? "p1" then inl p1
            else if name =? "p2" then inl p2 else inr not_found
       else if (GroupVersionResource.Resource resource =? "replicasets")
               && (ns =? "app") && (name =? "rs1")
       then inl rs1
       else inr not_found |}.

Definition core_v1 : APIResourceList.t :=
  APIResourceList.mk "v1"
    [ APIResource.mk "pods" true ["get"; "list"; "delete"];
      APIResource.mk "nodes" false ["get"; "list"];
      APIResource.mk "bindings" true ["create"] ].

Definition apps_v1 : APIResourceList.t :=
  APIResourceList.mk "apps/v1"
    [ APIResource.mk "replicasets" true ["get"; "list"] ].

Definition sample_clientset : Clientset.t :=
  {| Clientset.ServerPreferredNamespacedResources := ([core_v1; apps_v1], None);
     Clientset.ServerPreferredResources := ([core_v1; apps_v1], None);
     Clientset.NamespacesList := inl [Namespace.mk "app"; Namespace.mk "kube-system"] |}.

(** The same cluster while one aggregated API group cannot be discovered:
    both discovery calls return the groups they could read together with a
    group-discovery error. *)
Definition group_failed : error.t :=
  error.mk "unable to retrieve the complete list of server APIs: metrics.k8s.io/v1beta1" true.

Definition partial_clientset : Clientset.t :=
  {| Clientset.ServerPreferredNamespacedResources := ([core_v1; apps_v1], Some group_failed);
     Clientset.ServerPreferredResources := ([core_v1; apps_v1], Some group_failed);
     Clientset.NamespacesList := inl [Namespace.mk "app"; Namespace.mk "kube-system"] |}.

(** The sample cluster once deployment [d1] exists: the get that the Owner
    Resolver sends for it succeeds. *)
Definition d1 : Unstructured.t := Unstructured.mk "app" "d1" "Deployment" [] None [].

Definition healthy_dynamic : dynamic.Interface :=
  {| dynamic.List := dynamic.List sample_dynamic;
     dynamic.Get := fun resource ns name =>
       if (GroupVersionResource.Resource resource =? "Deployment")
          && (ns =? "app") && (name =? "d1")
       then inl d1
       else dynamic.Get sample_dynamic resource ns name |}.


(** The sample cluster, unchanged, answering in another order: the groups,
    the resources of the core group, the namespaces and the pods of [app]. *)
Definition core_v1_reordered : APIResourceList.t :=
  APIResourceList.mk "v1"
    [ APIResource.mk "nodes" false ["get"; "list"];
      APIResource.mk "pods" true ["get"; "list"; "delete"];
      APIResource.mk "bindings" true ["create"] ].

Definition reordered_clientset : Clientset.t :=
  {| Clientset.ServerPreferredNamespacedResources :=
       ([apps_v1; core_v1_reordered], None);
     Clientset.ServerPreferredResources := ([apps_v1; core_v1_reordered], None);
     Clientset.NamespacesList := inl [Namespace.mk "kube-system"; Namespace.mk "app"] |}.

Definition reordered_dynamic : dynamic.Interface :=
  {| dynamic.List := fun resource ns =>
       if (GroupVersionResource.Resource resource =? "pods") && (ns =? "app")
       then inl [p2; p1]
       else dynamic.List sample_dynamic resource ns;
     dynamic.Get := dynamic.Get sample_dynamic |}.

(** A discovery list that describes pods a second time, without the verb
    "list". *)
Definition pods_get_only : APIResourceList.t :=
  APIResourceList.mk "v1" [ APIResource.mk "pods" true ["get"] ].

(** The sample cluster behind a client that answers the namespaced discovery
    call as client-go does, from the answer to the other call. *)
Definition core_v1_namespaced : APIResourceList.t :=
  APIResourceList.mk "v1"
    [ APIResource.mk "pods" true ["get"; "list"; "delete"];
      APIResource.mk "bindings" true ["create"] ].

Definition filtering_clientset : Clientset.t :=
  {| Clientset.ServerPreferredNamespacedResources :=
       ([apps_v1; core_v1_namespaced], None);
     Clientset.ServerPreferredResources := ([core_v1; apps_v1], None);
     Clientset.NamespacesList := inl [Namespace.mk "app"; Namespace.mk "kube-system"] |}.





(** The sample cluster seen through a client for which the get of pod [p2]
    and the listing of replica sets fail. *)
Definition timeout : error.t := error.mk "context deadline exceeded" false.

Definition flaky_dynamic : dynamic.Interface :=
  {| dynamic.List := fun resource ns =>
       if GroupVersionResource.Resource resource =? "replicasets"
       then inr timeout
       else dynamic.List sample_dynamic resource ns;
     dynamic.Get := fun resource ns name =>
       if (GroupVersionResource.Resource resource =? "pods") && (name =? "p2")
       then inr timeout
       else dynamic.Get sample_dynamic resource ns name |}.

(** ** What the specification speaks of *)

Section SpecNotions.
Context {schema : Schema}.

(** The entry of a discovery catalog that describes a resource type: the first
    resource of that name among the lists of the type's group/version. *)
Definition catalogEntry (resource : GroupVersionResource.t)
    (catalog : list APIResourceList.t) : option APIResource.t :=
  find (fun a => APIResource.Name a =? GroupVersionResource.Resource resource)
    (flat_map APIResourceList.APIResources
       (filter (fun l => APIResourceList.GroupVersion l
                         =? GroupVersion_String (GroupVersionResource.GroupVersion resource))
          catalog)).

(** The catalog lists the verb "list" for the type. *)
Definition catalogHasList (resource : GroupVersionResource.t)
    (catalog : list APIResourceList.t) : Prop :=
  exists a, catalogEntry resource catalog = Some a
            /\ In "list" (APIResource.Verbs a).

(** The namespaced resource types of the groups in a discovery answer. *)
Definition namespacedTypes (catalog : list APIResourceList.t)
  : list GroupVersionResource.t :=
  flat_map (fun l =>
    match ParseGroupVersion (APIResourceList.GroupVersion l) with
    | inl gv =>
        map (fun a => WithResource gv (APIResource.Name a))
          (filter APIResource.Namespaced (APIResourceList.APIResources l))
    | inr _ => []
    end) catalog.

(** Every group/version string of a discovery answer parses. *)
Definition wellFormed (catalog : list APIResourceList.t) : Prop :=
  Forall (fun l => exists gv,
            ParseGroupVersion (APIResourceList.GroupVersion l) = inl gv) catalog.

(** An owner reference is dangling when the Owner Resolver answers false. *)
Definition dangling (dynamicClient : dynamic.Interface) (namespace : string)
    (owner : OwnerReference.t) : bool :=
  negb (value (OwnerExists dynamicClient owner namespace)).

(** The objects fetched for a namespace and a resource type: for each listed
    name, in order, the object when its get succeeds. *)
Definition fetched (dynamicClient : dynamic.Interface) (ns : string)
    (resource : GroupVersionResource.t) : list Unstructured.t :=
  match dynamic.List dynamicClient resource ns with
  | inr _ => []
  | inl items =>
      flat_map (fun name =>
        match dynamic.Get dynamicClient resource ns name with
        | inl obj => [obj]
        | inr _ => []
        end) (map Unstructured.GetName items)
  end.

(** The findings of the health checks for one fetched object. *)
Definition findings (dynamicClient : dynamic.Interface) (ns : string)
    (obj : Unstructured.t) : list ResourceCheckResult :=
  app (CheckStuckFinalizers obj)
      (value (CheckInvalidOwnerReferences dynamicClient obj ns)).

(** The findings that one listed name adds to the results. *)
Definition contribution (dynamicClient : dynamic.Interface) (ns : string)
    (resource : GroupVersionResource.t) (name : string) : list ResourceCheckResult :=
  match dynamic.Get dynamicClient resource ns name with
  | inl obj => findings dynamicClient ns obj
  | inr _ => []
  end.

(** All findings in traversal order: namespace, then resource type that
    passes the capability gate, then object. *)
Definition traversal (clientset : Clientset.t) (dynamicClient : dynamic.Interface)
    (resources : list GroupVersionResource.t) (namespaces : list string)
  : list ResourceCheckResult :=
  flat_map (fun ns =>
    flat_map (fun resource =>
      flat_map (findings dynamicClient ns) (fetched dynamicClient ns resource))
      (filter (fun resource => value (resourceSupportsList clientset resource))
         resources))
    namespaces.

End SpecNotions.

(** Two discovery lists hold the same group: the same group/version string
    and the same resources, in any order. *)
Definition sameList (l1 l2 : APIResourceList.t) : Prop :=
  APIResourceList.GroupVersion l1 = APIResourceList.GroupVersion l2
  /\ Permutation (APIResourceList.APIResources l1) (APIResourceList.APIResources l2).

(** Two discovery answers hold the same groups, in any order. *)
Inductive sameCatalog : list APIResourceList.t -> list APIResourceList.t -> Prop :=
| sameCatalog_nil : sameCatalog [] []
| sameCatalog_skip l1 l2 catalog1 catalog2 :
    sameList l1 l2 -> sameCatalog catalog1 catalog2 ->
    sameCatalog (l1 :: catalog1) (l2 :: catalog2)
| sameCatalog_swap l1 l2 catalog :
    sameCatalog (l1 :: l2 :: catalog) (l2 :: l1 :: catalog)
| sameCatalog_trans catalog1 catalog2 catalog3 :
    sameCatalog catalog1 catalog2 -> sameCatalog catalog2 catalog3 ->
    sameCatalog catalog1 catalog3.

(** Two answers of a call that lists things: the same things in any order, or
    the same error. *)
Definition sameAnswer {T : Type} (r1 r2 : result (list T)) : Prop :=
  match r1, r2 with
  | inl items1, inl items2 => Permutation items1 items2
  | inr err1, inr err2 => err1 = err2
  | _, _ => False
  end.

(** Two runs meet the cluster in the same state: discovery reports the same
    groups with the same resources and the same error, the same namespaces
    exist, every listing holds the same objects, each of these in any order,
    and every get has the same answer. *)
Definition unchangedCluster (clientset1 : Clientset.t)
    (dynamicClient1 : dynamic.Interface)
    (clientset2 : Clientset.t) (dynamicClient2 : dynamic.Interface) : Prop :=
  sameCatalog (fst (Clientset.ServerPreferredNamespacedResources clientset1))
    (fst (Clientset.ServerPreferredNamespacedResources clientset2))
  /\ snd (Clientset.ServerPreferredNamespacedResources clientset1)
     = snd (Clientset.ServerPreferredNamespacedResources clientset2)
  /\ sameCatalog (fst (Clientset.ServerPreferredResources clientset1))
       (fst (Clientset.ServerPreferredResources clientset2))
  /\ snd (Clientset.ServerPreferredResources clientset1)
     = snd (Clientset.ServerPreferredResources clientset2)
  /\ sameAnswer (Clientset.NamespacesList clientset1)
       (Clientset.NamespacesList clientset2)
  /\ (forall resource ns,
        sameAnswer (dynamic.List dynamicClient1 resource ns)
          (dynamic.List dynamicClient2 resource ns))
  /\ (forall resource ns name,
        dynamic.Get dynamicClient1 resource ns name
        = dynamic.Get dynamicClient2 resource ns name).

(** A resource is listed by a catalog under a group/version string. *)
Definition entryOf (catalog : list APIResourceList.t) (groupVersion : string)
    (a : APIResource.t) : Prop :=
  exists l, In l catalog
            /\ APIResourceList.GroupVersion l = groupVersion
            /\ In a (APIResourceList.APIResources l).

(** A catalog that does not describe one resource type twice with different
    verbs: entries of the same group/version and name have the same verbs. *)
Definition consistent (catalog : list APIResourceList.t) : Prop :=
  forall groupVersion a a',
    entryOf catalog groupVersion a -> entryOf catalog groupVersion a' ->
    APIResource.Name a = APIResource.Name a' ->
    APIResource.Verbs a = APIResource.Verbs a'.

(** Some entry of the catalog for the resource type has the verb "list". *)
Definition listable {schema : Schema} (catalog : list APIResourceList.t)
    (resource : GroupVersionResource.t) : Prop :=
  exists a,
    entryOf catalog (GroupVersion_String (GroupVersionResource.GroupVersion resource)) a
    /\ APIResource.Name a = GroupVersionResource.Resource resource
    /\ In "list" (APIResource.Verbs a).

(** What client-go answers to [ServerPreferredNamespacedResources] when it
    answers [catalog] to [ServerPreferredResources]: each list cut down to
    its namespaced resources, and the lists left without a resource
    dropped. *)
Definition FilteredByNamespaced (catalog : list APIResourceList.t)
  : list APIResourceList.t :=
  flat_map (fun l =>
    match filter APIResource.Namespaced (APIResourceList.APIResources l) with
    | [] => []
    | namespaced => [APIResourceList.mk (APIResourceList.GroupVersion l) namespaced]
    end) catalog.

(** A finding about an object: namespace and name as the object has them, the
    object's kind as resource, and one of the two issues. *)
Definition describes (obj : Unstructured.t) (r : ResourceCheckResult) : Prop :=
  Namespace r = Unstructured.GetNamespace obj
  /\ Name r = Unstructured.GetName obj
  /\ Resource r = Unstructured.GetKind obj
  /\ (Issue r = "Stuck finalizer" \/ Issue r = "Invalid ownerReference").

(** An event other than a list request. *)
Definition notList (e : Event) : Prop :=
  match e with
  | ReqList _ _ => False
  | _ => True
  end.

(** An event other than a list request for a resource type that the
    capability gate refuses. *)
Definition gated {schema : Schema} (clientset : Clientset.t) (e : Event) : Prop :=
  match e with
  | ReqList resource _ => value (resourceSupportsList clientset resource) = true
  | _ => True
  end.

(** A request sent through the dynamic client. *)
Definition isDynamicRequest (e : Event) : bool :=
  match e with
  | ReqList _ _ | ReqGet _ _ _ => true
  | _ => false
  end.

(** ** The rest of package [k8s] *)

Section MoreDiscovery.
Context {schema : Schema}.

(** The inner loop of [GetClusterScopedResources]. *)
Fixpoint GetClusterScopedResources_inner (groupVersion : GroupVersion.t)
    (apiResources : list APIResource.t) (resources : list GroupVersionResource.t)
  : list GroupVersionResource.t :=
  match apiResources with
  | [] => resources
  | apiResource :: rest =>
      if negb (APIResource.Namespaced apiResource)
      then GetClusterScopedResources_inner groupVersion rest
             (app resources [WithResource groupVersion (APIResource.Name apiResource)])
      else GetClusterScopedResources_inner groupVersion rest resources
  end.

(** The outer loop of [GetClusterScopedResources]. *)
Fixpoint GetClusterScopedResources_loop (apiResourceLists : list APIResourceList.t)
    (resources : list GroupVersionResource.t)
  : result (list GroupVersionResource.t) :=
  match apiResourceLists with
  | [] => inl resources
  | apiResourceList :: rest =>
      match ParseGroupVersion (APIResourceList.GroupVersion apiResourceList) with
      | inr err =>
          inr (Errorf ("error parsing GroupVersion "
                       ++ APIResourceList.GroupVersion apiResourceList ++ ": ") err)
      | inl groupVersion =>
          GetClusterScopedResources_loop rest
            (GetClusterScopedResources_inner groupVersion
               (APIResourceList.APIResources apiResourceList) resources)
      end
  end.

(** [GetClusterScopedResources] *)
Definition GetClusterScopedResources (clientset : Clientset.t)
  : M (result (list GroupVersionResource.t)) :=
  r <- call_ServerPreferredResources clientset ;;
  let (apiResourceLists, err) := r in
  match err with
  | Some err =>
      if error.IsGroupDiscoveryFailedError err
      then
        emit (Printf ("Partial discovery error: " ++ error.Error err ++ newline)) ;;;
        ret (GetClusterScopedResources_loop apiResourceLists [])
      else ret (inr (Errorf "error fetching cluster-scoped resources: " err))
  | None => ret (GetClusterScopedResources_loop apiResourceLists [])
  end.

(** The group/version that [gv, _ = schema.ParseGroupVersion(s)] leaves in
    [gv]: the parsed one, or the zero value that the library returns next to
    an error. *)
Definition parsedOrZero (s : string) : GroupVersion.t :=
  match ParseGroupVersion s with
  | inl gv => gv
  | inr _ => GroupVersion.mk "" ""
  end.

(** The loops of [GetNamespacedObjects]; the error of the parse is dropped. *)
Fixpoint GetNamespacedObjects_inner (gv : GroupVersion.t)
    (apiResources : list APIResource.t) (objects : list GroupVersionResource.t)
  : list GroupVersionResource.t :=
  match apiResources with
  | [] => objects
  | apiResource :: rest =>
      if APIResource.Namespaced apiResource
      then
        let object := WithResource gv (APIResource.Name apiResource) in
        GetNamespacedObjects_inner gv rest (app objects [object])
      else GetNamespacedObjects_inner gv rest objects
  end.

Fixpoint GetNamespacedObjects_loop (apiResourceList : list APIResourceList.t)
    (objects : list GroupVersionResource.t) : list GroupVersionResource.t :=
  match apiResourceList with
  | [] => objects
  | apiResources :: rest =>
      let gv := parsedOrZero (APIResourceList.GroupVersion apiResources) in
      GetNamespacedObjects_loop rest
        (GetNamespacedObjects_inner gv (APIResourceList.APIResources apiResources)
           objects)
  end.

(** [GetNamespacedObjects] *)
Definition GetNamespacedObjects (clientset : Clientset.t)
  : M (result (list GroupVersionResource.t)) :=
  log.Infof "Fetching namespaced API resources..." ;;;
  r <- call_ServerPreferredResources clientset ;;
  let (apiResourceList, err) := r in
  match err with
  | Some err =>
      log.Errorf ("Error fetching namespaced API resources: " ++ error.Error err) ;;;
      ret (inr err)
  | None => ret (inl (GetNamespacedObjects_loop apiResourceList []))
  end.

End MoreDiscovery.

(** An [APIResource] with its [Version] field, which only
    [GetAPIVersionForResource] reads. *)
Module VersionedResource.
Record t : Type := mk {
  Resource : APIResource.t;
  Version : string
}.
End VersionedResource.

(** The discovery call of [GetAPIVersionForResource]:
    [ServerResourcesForGroupVersion], of which the resources are read. *)
Module Discovery.
Record t : Type := mk {
  ServerResourcesForGroupVersion : string -> result (list VersionedResource.t)
}.
End Discovery.

(** A Go call either returns or panics. *)
Inductive outcome (A : Type) : Type :=
| Returned (a : A)
| Panicked (message : string).
Arguments Panicked {A} message.

(** [GetAPIVersionForResource]; indexing an empty slice panics. *)
Definition GetAPIVersionForResource {schema : Schema} (discovery : Discovery.t)
    (resource : GroupVersionResource.t) : outcome (string * option error.t) :=
  match Discovery.ServerResourcesForGroupVersion discovery
          (GroupVersion_String (GroupVersionResource.GroupVersion resource)) with
  | inr err => Returned ("", Some err)
  | inl apiResources =>
      match apiResources with
      | [] => Panicked "runtime error: index out of range [0] with length 0"
      | first :: _ => Returned (VersionedResource.Version first, None)
      end
  end.

(** ** The process around the scan *)

(** The SMTP dialer and the message of [sendEmailReport]. *)
Module Dialer.
Record t : Type := mk {
  Host : string;
  Port : Z;
  Username : string;
  Password : string
}.
End Dialer.

Module Message.
Record t : Type := mk {
  From : string;
  To : string;
  Subject : string;
  ContentType : string;
  Body : string
}.
End Message.

(** What the process finds around it: the environment variables, the
    functions of client-go that build a configuration and the clients from
    it, the listing of nodes through the typed client, and the SMTP server. *)
Module Platform.
Record t (Config : Type) : Type := mk {
  Environ : string -> option string;
  InClusterConfig : result Config;
  BuildConfigFromFlags : string -> string -> result Config;
  kubernetes_NewForConfig : Config -> result Clientset.t;
  dynamic_NewForConfig : Config -> result dynamic.Interface;
  NodesList : Clientset.t -> option error.t;
  DialAndSend : Dialer.t -> Message.t -> option error.t
}.
End Platform.

(** [os.Getenv]: the empty string for a variable that is not set. *)
Definition Getenv (environ : string -> option string) (key : string) : string :=
  match environ key with
  | Some value => value
  | None => ""
  end.

(** [ConnectToCluster] *)
Definition ConnectToCluster {Config : Type} (platform : Platform.t Config)
    (kubeconfig : string) : result (Clientset.t * dynamic.Interface) :=
  let config : result Config :=
    if negb (Getenv (Platform.Environ platform) "KUBERNETES_SERVICE_HOST" =? "")
       && negb (Getenv (Platform.Environ platform) "KUBERNETES_SERVICE_PORT" =? "")
    then
      match Platform.InClusterConfig platform with
      | inr err => inr (Errorf "error creating in-cluster config: " err)
      | inl config => inl config
      end
    else
      let kubeconfig :=
        if kubeconfig =? ""
        then
          let kubeconfig := Getenv (Platform.Environ platform) "KUBECONFIG" in
          if kubeconfig =? ""
          then Getenv (Platform.Environ platform) "HOME" ++ "/.kube/config"
          else kubeconfig
        else kubeconfig in
      match Platform.BuildConfigFromFlags platform "" kubeconfig with
      | inr err => inr (Errorf "error creating kubeconfig: " err)
      | inl config => inl config
      end in
  match config with
  | inr err => inr err
  | inl config =>
      match Platform.kubernetes_NewForConfig platform config with
      | inr err => inr (Errorf "error creating clientset: " err)
      | inl clientset =>
          match Platform.dynamic_NewForConfig platform config with
          | inr err => inr (Errorf "error creating dynamic client: " err)
          | inl dynamicClient => inl (clientset, dynamicClient)
          end
      end
  end.

(** What the process does, in order: the events of the scan, the listing of
    nodes, the lines of the standard logger, a fatal log line, and the
    sending of a mail. *)
Inductive ProcessEvent : Type :=
| Scanner (e : Event)
| ReqNodesList
| StdLog (line : string)
| LogFatal (line : string)
| SendMail (dialer : Dialer.t) (message : Message.t).

(** [VerifyAccessToCluster] *)
Definition VerifyAccessToCluster {Config : Type} (platform : Platform.t Config)
    (clientset : Clientset.t) : list ProcessEvent * option error.t :=
  let before :=
    [Scanner (LogInfo "Verifying access to the Kubernetes cluster..."); ReqNodesList] in
  match Platform.NodesList platform clientset with
  | Some err => (before, Some (Errorf "error listing nodes: " err))
  | None =>
      (app before
         [Scanner (LogInfo "Access to the Kubernetes cluster verified successfully.")],
       None)
  end.

(** *** Package [config] *)

(** The functions of the Go standard library that [config] calls on text:
    [strings.ToLower], [strconv.ParseBool], and [fmt.Sscanf] with the format
    [%d]. *)
Class GoText : Type := {
  ToLower : string -> string;
  ParseBool : string -> result bool;
  Sscanf_d : string -> result Z
}.

(** [%t] and [%d]. *)
Definition fmt_t (b : bool) : string := if b then "true" else "false".
Definition fmt_dZ (z : Z) : string := NilZero.string_of_int (Z.to_int z).

Module config.

Record AppConfig : Type := mkAppConfig {
  Debug : bool;
  LogLevel : string;
  MetricsPort : Z;
  Kubeconfig : string;
  ClusterName : string;
  CronSchedule : string;
  RunOnce : bool;
  EmailReport : bool;
  SmtpHost : string;
  SmtpPort : Z;
  SmtpUser : string;
  SmtpPassword : string;
  SmtpFrom : string;
  SmtpTo : string
}.

(** [getEnvOrDefault] *)
Definition getEnvOrDefault (environ : string -> option string)
    (key defaultValue : string) : string :=
  let value := Getenv environ key in
  if value =? "" then defaultValue else value.

Section WithGoText.
Context {gotext : GoText}.

(** [parseEnvInt], with the lines it prints through the standard logger. *)
Definition parseEnvInt (environ : string -> option string) (key : string)
    (defaultValue : Z) : list string * Z :=
  let value := Getenv environ key in
  if value =? "" then ([], defaultValue)
  else
    match Sscanf_d value with
    | inr err =>
        ([ "Failed to parse environment variable " ++ key ++ ": " ++ error.Error err
           ++ ". Using default value: " ++ fmt_dZ defaultValue ],
         defaultValue)
    | inl intValue => ([], intValue)
    end.

(** The literals of the two cases of the switch of [parseEnvBool]. *)
Definition truthy : list string := ["1"; "t"; "true"; "yes"; "on"; "enabled"].
Definition falsy : list string := ["0"; "f"; "false"; "no"; "off"; "disabled"].

(** [parseEnvBool], with the lines it prints through the standard logger. *)
Definition parseEnvBool (environ : string -> option string) (key : string)
    (defaultValue : bool) : list string * bool :=
  match environ key with
  | None => ([], defaultValue)
  | Some value =>
      let value := ToLower value in
      if existsb (String.eqb value) truthy then ([], true)
      else if existsb (String.eqb value) falsy then ([], false)
      else
        match ParseBool value with
        | inr err =>
            ([ "Error parsing " ++ key ++ " as bool: " ++ error.Error err
               ++ ". Using default value: " ++ fmt_t defaultValue ],
             defaultValue)
        | inl boolValue => ([], boolValue)
        end
  end.

(** [LoadConfiguration]: the lines printed, in order, and the value left in
    [CFG]. *)
Definition LoadConfiguration (environ : string -> option string)
  : list string * AppConfig :=
  let (log1, debug) := parseEnvBool environ "DEBUG" false in
  let logLevel := getEnvOrDefault environ "LOG_LEVEL" "info" in
  let kubeconfig := getEnvOrDefault environ "KUBECONFIG" "~/.kube/config" in
  let (log2, metricsPort) := parseEnvInt environ "METRICS_PORT" 9999 in
  let clusterName := getEnvOrDefault environ "CLUSTER_NAME" "k8s-cluster" in
  let cronSchedule := getEnvOrDefault environ "CRON_SCHEDULE" "0 0 * * *" in
  let (log3, runOnce) := parseEnvBool environ "RUN_ONCE" false in
  let (log4, emailReport) := parseEnvBool environ "EMAIL_REPORT" false in
  let smtpHost := getEnvOrDefault environ "SMTP_HOST" "" in
  let (log5, smtpPort) := parseEnvInt environ "SMTP_PORT" 25 in
  let smtpUser := getEnvOrDefault environ "SMTP_USER" "" in
  let smtpPassword := getEnvOrDefault environ "SMTP_PASSWORD" "" in
  let smtpFrom := getEnvOrDefault environ "SMTP_FROM" "" in
  let smtpTo := getEnvOrDefault environ "SMTP_TO" "" in
  (app log1 (app log2 (app log3 (app log4 log5))),
   {| Debug := debug;
      LogLevel := logLevel;
      MetricsPort := metricsPort;
      Kubeconfig := kubeconfig;
      ClusterName := clusterName;
      CronSchedule := cronSchedule;
      RunOnce := runOnce;
      EmailReport := emailReport;
      SmtpHost := smtpHost;
      SmtpPort := smtpPort;
      SmtpUser := smtpUser;
      SmtpPassword := smtpPassword;
      SmtpFrom := smtpFrom;
      SmtpTo := smtpTo |}).

End WithGoText.
End config.

(** *** Package [logging] *)

Module logging.

Inductive Level : Type := InfoLevel | DebugLevel.
Inductive Output : Type := Stdout | Stderr.

(** A [logrus.Logger] with the settings that [SetupLogging] touches. *)
Record Logger : Type := mkLogger {
  Out : Output;
  ReportCaller : bool;
  DisableTimestamp : bool;
  FullTimestamp : bool;
  DisableQuote : bool;
  GetLevel : Level
}.

(** [SetupLogging], from the environment and the package variable [logger]
    ([None] for nil): the logger returned and the new value of the
    variable. *)
Definition SetupLogging (environ : string -> option string)
    (logger : option Logger) : Logger * option Logger :=
  let debug := if Getenv environ "DEBUG" =? "true" then true else false in
  match logger with
  | None =>
      let logger :=
        {| Out := Stdout;
           ReportCaller := false;
           DisableTimestamp := true;
           FullTimestamp := false;
           DisableQuote := true;
           GetLevel := if debug then DebugLevel else InfoLevel |} in
      (logger, Some logger)
  | Some logger => (logger, Some logger)
  end.

End logging.

(** *** Package [main] *)

(** One call of [buffer.WriteString]. *)
Definition WriteString (buffer s : string) : string := buffer ++ s.

(** The loop of [generateReport] over the results still to write. *)
Fixpoint generateReport_loop (results : list ResourceCheckResult) (buffer : string)
  : string :=
  match results with
  | [] => buffer
  | result :: rest =>
      let buffer := WriteString buffer ("Namespace: " ++ Namespace result ++ newline) in
      let buffer := WriteString buffer ("Resource: " ++ Resource result ++ newline) in
      let buffer := WriteString buffer ("Name: " ++ Name result ++ newline) in
      let buffer := WriteString buffer ("Issue: " ++ Issue result ++ newline) in
      let buffer :=
        WriteString buffer ("Additional Info: " ++ AdditionalInfo result ++ newline) in
      let buffer := WriteString buffer newline in
      generateReport_loop rest buffer
  end.

(** [generateReport] *)
Definition generateReport (results : list ResourceCheckResult) : string :=
  let buffer := "" in
  let buffer :=
    WriteString buffer ("Daily Kubernetes Resource Report" ++ newline ++ newline) in
  let buffer :=
    WriteString buffer ("Detected issues in resources:" ++ newline ++ newline) in
  generateReport_loop results buffer.

(** [sendEmailReport]: the mail handed to the dialer, then the line logged. *)
Definition sendEmailReport {Config : Type} (platform : Platform.t Config)
    (CFG : config.AppConfig) (report : string) : list ProcessEvent :=
  let mailer :=
    {| Message.From := config.SmtpFrom CFG;
       Message.To := config.SmtpTo CFG;
       Message.Subject := "Daily Kubernetes Resource Report";
       Message.ContentType := "text/plain";
       Message.Body := report |} in
  let dialer :=
    {| Dialer.Host := config.SmtpHost CFG;
       Dialer.Port := config.SmtpPort CFG;
       Dialer.Username := config.SmtpUser CFG;
       Dialer.Password := config.SmtpPassword CFG |} in
  match Platform.DialAndSend platform dialer mailer with
  | Some err =>
      [ SendMail dialer mailer;
        Scanner (LogError ("Failed to send email report: " ++ error.Error err)) ]
  | None =>
      [ SendMail dialer mailer; Scanner (LogInfo "Email report sent successfully.") ]
  end.

(** How the process ends: [main] returns, or a fatal log line exits with a
    code. *)
Inductive ExitStatus : Type :=
| Finished
| Exited (code : Z).

(** [logger.Fatalf]: the line, then [os.Exit(1)]. *)
Definition Fatalf (before : list ProcessEvent) (line : string)
  : list ProcessEvent * ExitStatus :=
  (app before [LogFatal line], Exited 1).

(** [main] *)
Definition main {schema : Schema} {gotext : GoText} {Config : Type}
    (platform : Platform.t Config) : list ProcessEvent * ExitStatus :=
  let (configLines, CFG) := config.LoadConfiguration (Platform.Environ platform) in
  let events :=
    app (map StdLog configLines)
      [ Scanner (LogInfo ("Starting Rancher Resource Scanner for Cluster: "
                          ++ config.ClusterName CFG)) ] in
  match ConnectToCluster platform (config.Kubeconfig CFG) with
  | inr err =>
      Fatalf events ("Error connecting to Kubernetes cluster: " ++ error.Error err)
  | inl (clientset, dynamicClient) =>
      let (verifying, verr) := VerifyAccessToCluster platform clientset in
      let events := app events verifying in
      match verr with
      | Some err =>
          Fatalf events ("Cluster access verification failed: " ++ error.Error err)
      | None =>
          let events := app events [Scanner (LogInfo "Scanning resources...")] in
          let (scanning, returned) := ScanNamespaceResources clientset dynamicClient in
          let (results, err) := returned in
          let events := app events (map Scanner scanning) in
          match err with
          | Some err =>
              Fatalf events ("Error scanning resources: " ++ error.Error err)
          | None =>
              if (0 <? List.length results)%nat
              then
                let events :=
                  app events [Scanner (LogInfo "Issues found, generating report...")] in
                let report := generateReport results in
                if config.EmailReport CFG
                then (app events (sendEmailReport platform CFG report), Finished)
                else (app events [Scanner (LogInfo report)], Finished)
              else
                (app events [Scanner (LogInfo "No issues found in resources.")],
                 Finished)
          end
      end
  end.

(** ** Sample surroundings

    Stand-ins for the text functions of the standard library, which agree
    with the library on the text of the sample environments: ASCII text for
    [ToLower], and a decimal number with the text around it for [Sscanf_d].
    Nothing is stated about the library on other text, nor about the wording
    of its errors. *)

Definition lower_ascii (c : ascii) : ascii :=
  let n := nat_of_ascii c in
  if ((65 <=? n) && (n <=? 90))%nat then ascii_of_nat (n + 32) else c.

Fixpoint sample_ToLower (s : string) : string :=
  match s with
  | EmptyString => EmptyString
  | String c rest => String (lower_ascii c) (sample_ToLower rest)
  end.

Definition quoted (s : string) : string :=
  String (ascii_of_nat 34) (s ++ String (ascii_of_nat 34) "").

Definition sample_ParseBool (s : string) : result bool :=
  if existsb (String.eqb s) ["1"; "t"; "T"; "TRUE"; "true"; "True"] then inl true
  else if existsb (String.eqb s) ["0"; "f"; "F"; "FALSE"; "false"; "False"]
  then inl false
  else inr (error.mk ("strconv.ParseBool: parsing " ++ quoted s ++ ": invalid syntax")
              false).

(** [Sscanf] with [%d]: blanks are skipped, a sign is accepted, the decimal
    digits that follow are read and the text after them is left unread; a
    text without a digit there and a number that does not fit 64 bits are
    refused. *)
Fixpoint skip_blanks (s : string) : string :=
  match s with
  | EmptyString => EmptyString
  | String c rest =>
      if Ascii.eqb c " "%char || Ascii.eqb c (ascii_of_nat 9)
      then skip_blanks rest else s
  end.

Definition digit_value (c : ascii) : option Z :=
  let n := nat_of_ascii c in
  if ((48 <=? n) && (n <=? 57))%nat then Some (Z.of_nat (n - 48)) else None.

Fixpoint read_digits (s : string) (value : Z) : Z :=
  match s with
  | EmptyString => value
  | String c rest =>
      match digit_value c with
      | Some d => read_digits rest (10 * value + d)
      | None => value
      end
  end.

Definition sample_Sscanf_d (s : string) : result Z :=
  let s := skip_blanks s in
  let (negative, s) :=
    match s with
    | String c rest =>
        if Ascii.eqb c "-"%char then (true, rest)
        else if Ascii.eqb c "+"%char then (false, rest)
        else (false, s)
    | EmptyString => (false, s)
    end in
  match s with
  | EmptyString => inr (error.mk "unexpected EOF" false)
  | String c _ =>
      match digit_value c with
      | None => inr (error.mk "expected integer" false)
      | Some _ =>
          let n := read_digits s 0 in
          let n := if negative then (- n)%Z else n in
          if ((- 2 ^ 63 <=? n) && (n <=? 2 ^ 63 - 1))%Z then inl n
          else inr (error.mk "value out of range" false)
      end
  end.

Definition sample_gotext : GoText :=
  {| ToLower := sample_ToLower;
     ParseBool := sample_ParseBool;
     Sscanf_d := sample_Sscanf_d |}.

(** A workstation outside the cluster: no variable is set but those given;
    any kubeconfig path opens the sample cluster. *)
Definition workstation (environ : string -> option string) : Platform.t unit :=
  {| Platform.Environ := environ;
     Platform.InClusterConfig := inr (error.mk "not running in a cluster" false);
     Platform.BuildConfigFromFlags := fun _ _ => inl tt;
     Platform.kubernetes_NewForConfig := fun _ => inl sample_clientset;
     Platform.dynamic_NewForConfig := fun _ => inl sample_dynamic;
     Platform.NodesList := fun _ => None;
     Platform.DialAndSend := fun _ _ => None |}.

Definition mail_environ (key : string) : option string :=
  if key =? "EMAIL_REPORT" then Some "Yes"
  else if key =? "SMTP_TO" then Some "ops@example.org"
  else if key =? "DEBUG" then Some "1"
  else None.

Definition no_environ (key : string) : option string := None.

(** A pod of the cluster: the service variables are set and the in-cluster
    configuration opens the sample cluster. *)
Definition in_cluster_environ (key : string) : option string :=
  if key =? "KUBERNETES_SERVICE_HOST" then Some "10.0.0.1"
  else if key =? "KUBERNETES_SERVICE_PORT" then Some "443"
  else None.

Definition in_cluster : Platform.t unit :=
  {| Platform.Environ := in_cluster_environ;
     Platform.InClusterConfig := inl tt;
     Platform.BuildConfigFromFlags := fun _ _ => inr (error.mk "no such file" false);
     Platform.kubernetes_NewForConfig := fun _ => inl sample_clientset;
     Platform.dynamic_NewForConfig := fun _ => inl sample_dynamic;
     Platform.NodesList := fun _ => None;
     Platform.DialAndSend := fun _ _ => None |}.

(** ** Notions for the properties of the remaining code *)

Section MoreNotions.
Context {schema : Schema}.

(** The cluster-scoped resource types of the groups in a discovery answer,
    and all the resource types of these groups. *)
Definition clusterTypes (catalog : list APIResourceList.t)
  : list GroupVersionResource.t :=
  flat_map (fun l =>
    match ParseGroupVersion (APIResourceList.GroupVersion l) with
    | inl gv =>
        map (fun a => WithResource gv (APIResource.Name a))
          (filter (fun a => negb (APIResource.Namespaced a))
             (APIResourceList.APIResources l))
    | inr _ => []
    end) catalog.

Definition allTypes (catalog : list APIResourceList.t)
  : list GroupVersionResource.t :=
  flat_map (fun l =>
    match ParseGroupVersion (APIResourceList.GroupVersion l) with
    | inl gv =>
        map (fun a => WithResource gv (APIResource.Name a))
          (APIResourceList.APIResources l)
    | inr _ => []
    end) catalog.

(** The namespaced resource types of a discovery answer, those of a group
    whose group/version string does not parse under the empty group and
    version. *)
Definition namespacedTypesLenient (catalog : list APIResourceList.t)
  : list GroupVersionResource.t :=
  flat_map (fun l =>
    map (fun a => WithResource (parsedOrZero (APIResourceList.GroupVersion l))
                    (APIResource.Name a))
      (filter APIResource.Namespaced (APIResourceList.APIResources l))) catalog.

End MoreNotions.

(** The re-query of the capability gate, and a list request. *)
Definition isRequery (e : Event) : bool :=
  match e with
  | ReqServerPreferredResources => true
  | _ => false
  end.

Definition isListRequest (e : Event) : bool :=
  match e with
  | ReqList _ _ => true
  | _ => false
  end.

(** The two header lines of a report and the six lines of one finding. *)
Definition reportHeader : string :=
  "Daily Kubernetes Resource Report" ++ newline ++ newline
  ++ "Detected issues in resources:" ++ newline ++ newline.

Definition reportBlock (r : ResourceCheckResult) : string :=
  "Namespace: " ++ Namespace r ++ newline
  ++ "Resource: " ++ Resource r ++ newline
  ++ "Name: " ++ Name r ++ newline
  ++ "Issue: " ++ Issue r ++ newline
  ++ "Additional Info: " ++ AdditionalInfo r ++ newline
  ++ newline.

(** The lines of the findings of a report, after its header. *)
Fixpoint reportBody (results : list ResourceCheckResult) : string :=
  match results with
  | [] => ""
  | r :: rest => reportBlock r ++ reportBody rest
  end.

(** A text without a line break, and a finding whose fields are such. *)
Fixpoint oneLine (s : string) : Prop :=
  match s with
  | EmptyString => True
  | String c rest => c <> ascii_of_nat 10 /\ oneLine rest
  end.

Definition oneLineResult (r : ResourceCheckResult) : Prop :=
  oneLine (Namespace r) /\ oneLine (Resource r) /\ oneLine (Name r)
  /\ oneLine (Issue r) /\ oneLine (AdditionalInfo r).

(** The mails handed to the dialer during a run. *)
Definition mails (events : list ProcessEvent) : list (Dialer.t * Message.t) :=
  flat_map (fun e =>
    match e with
    | SendMail dialer message => [(dialer, message)]
    | _ => []
    end) events.

(** The fatal lines of a run. *)
Definition fatals (events : list ProcessEvent) : list string :=
  flat_map (fun e =>
    match e with
    | LogFatal line => [line]
    | _ => []
    end) events.

(** A platform with one environment variable set to a value. *)
Definition setenv {Config : Type} (platform : Platform.t Config)
    (key value : string) : Platform.t Config :=
  {| Platform.Environ := fun k =>
       if k =? key then Some value else Platform.Environ platform k;
     Platform.InClusterConfig := Platform.InClusterConfig platform;
     Platform.BuildConfigFromFlags := Platform.BuildConfigFromFlags platform;
     Platform.kubernetes_NewForConfig := Platform.kubernetes_NewForConfig platform;
     Platform.dynamic_NewForConfig := Platform.dynamic_NewForConfig platform;
     Platform.NodesList := Platform.NodesList platform;
     Platform.DialAndSend := Platform.DialAndSend platform |}.

(** The configuration that [main] loads on a platform. *)
Definition loaded {gotext : GoText} {Config : Type} (platform : Platform.t Config)
  : config.AppConfig :=
  snd (config.LoadConfiguration (Platform.Environ platform)).

(** The process runs in a pod: both service variables are set and not
    empty. *)
Definition inCluster (environ : string -> option string) : bool :=
  negb (Getenv environ "KUBERNETES_SERVICE_HOST" =? "")
  && negb (Getenv environ "KUBERNETES_SERVICE_PORT" =? "").

(** A catalog with a group whose group/version string reads "a/b/c". *)
Definition broken_group : APIResourceList.t :=
  APIResourceList.mk "a/b/c" [ APIResource.mk "widgets" true ["get"; "list"] ].

Definition broken_clientset : Clientset.t :=
  {| Clientset.ServerPreferredNamespacedResources :=
       ([core_v1; broken_group; apps_v1], None);
     Clientset.ServerPreferredResources := ([core_v1; broken_group; apps_v1], None);
     Clientset.NamespacesList := inl [Namespace.mk "app"] |}.

(** Discovery of single groups: [v1] has resources, [batch/v1] has none, any
    other group cannot be read. *)
Definition sample_discovery : Discovery.t :=
  {| Discovery.ServerResourcesForGroupVersion := fun groupVersion =>
       if groupVersion =? "v1"
       then inl [ VersionedResource.mk (APIResource.mk "pods" true ["get"; "list"]) "";
                  VersionedResource.mk (APIResource.mk "nodes" false ["get"]) "v1" ]
       else if groupVersion =? "batch/v1" then inl []
       else inr not_found |}.

Definition debug_environ (key : string) : option string :=
  if key =? "DEBUG" then Some "true" else None.

(** Two findings for the report. *)
Definition finding_a : ResourceCheckResult := mkResult "app" "Pod" "p1" "x" "y".
Definition finding_b : ResourceCheckResult := mkResult "app" "Pod" "p2" "x" "z".

(** A finding whose additional information runs over several lines and reads
    like the end of one finding and a second finding. *)
Definition finding_ab : ResourceCheckResult :=
  mkResult "app" "Pod" "p1" "x"
    ("y" ++ newline ++ newline
     ++ "Namespace: app" ++ newline
     ++ "Resource: Pod" ++ newline
     ++ "Name: p2" ++ newline
     ++ "Issue: x" ++ newline
     ++ "Additional Info: z").

Open Scope list_scope.

(** ** The trace monad *)

Lemma value_bind {A B : Type} (m : M A) (k : A -> M B) :
  value (bind m k) = value (k (value m)).
Proof.
  unfold value, bind. destruct m as [t1 a]. cbn.
  destruct (k a) as [t2 b]. reflexivity.
Qed.

Lemma trace_bind {A B : Type} (m : M A) (k : A -> M B) :
  trace (bind m k) = trace m ++ trace (k (value m)).
Proof.
  unfold trace, value, bind. destruct m as [t1 a]. cbn.
  destruct (k a) as [t2 b]. reflexivity.
Qed.

Lemma value_ret {A : Type} (a : A) : value (ret a) = a.
Proof. reflexivity. Qed.

Lemma trace_ret {A : Type} (a : A) : trace (ret a) = [].
Proof. reflexivity. Qed.

Create Rewrite HintDb scan.
#[local] Hint Rewrite @value_bind @trace_bind @value_ret @trace_ret : scan.

Ltac run := autorewrite with scan; cbn [value trace emit log.Errorf log.Infof fst snd].

(** ** The scenarios of the specification, run on the sample cluster *)

Example scenario_A :
  CheckStuckFinalizers p1
  = [ mkResult "app" "Pod" "p1" "Stuck finalizer"
        "Finalizers: [a.io/cleanup], DeletionTimestamp: 2024-05-01 10:00:00 +0000 UTC" ].
Proof. reflexivity. Qed.

Example scenario_B (t : option Time.t) :
  CheckStuckFinalizers (Unstructured.mk "app" "p2" "Pod" [] t []) = [].
Proof. reflexivity. Qed.

Example scenario_C :
  value (CheckInvalidOwnerReferences (schema := apimachinery) sample_dynamic rs1 "app")
  = [ mkResult "app" "ReplicaSet" "rs1" "Invalid ownerReference"
        "OwnerReference: APIVersion=apps/v1, Kind=Deployment, Name=d1, UID=X" ].
Proof. reflexivity. Qed.

Example scenario_D :
  value (CheckInvalidOwnerReferences (schema := apimachinery) healthy_dynamic rs1 "app")
  = [].
Proof. reflexivity. Qed.

(** Scenario E: the pass does not abort; the re-query of the capability gate
    meets the same discovery error for each pair of namespace and type. *)
Example scenario_E :
  ScanNamespaceResources (schema := apimachinery) partial_clientset sample_dynamic
  = ( [ ReqServerPreferredNamespacedResources;
        Printf ("Partial discovery error: " ++ error.Error group_failed ++ newline)%string;
        ReqNamespacesList ]
      ++ List.concat (repeat
           [ ReqServerPreferredResources;
             LogError ("Error fetching API resources to check for 'list' support: "
                       ++ error.Error group_failed)%string ] 6)
      ++ [ LogInfo "Scanning completed: Found 0 issues" ],
      ([], None) ).
Proof. reflexivity. Qed.

Example sample_pass :
  value (ScanNamespaceResources (schema := apimachinery) sample_clientset sample_dynamic)
  = ( [ mkResult "app" "Pod" "p1" "Stuck finalizer"
          "Finalizers: [a.io/cleanup], DeletionTimestamp: 2024-05-01 10:00:00 +0000 UTC";
        mkResult "app" "ReplicaSet" "rs1" "Invalid ownerReference"
          "OwnerReference: APIVersion=apps/v1, Kind=Deployment, Name=d1, UID=X" ],
      None ).
Proof. reflexivity. Qed.

(** ** The stuck-finalizer check *)

Lemma CheckStuckFinalizers_cases (obj : Unstructured.t) :
  CheckStuckFinalizers obj =
  match Unstructured.GetFinalizers obj, Unstructured.GetDeletionTimestamp obj with
  | _ :: _, Some t =>
      [ {| Namespace := Unstructured.GetNamespace obj;
           Resource := Unstructured.GetKind obj;
           Name := Unstructured.GetName obj;
           Issue := "Stuck finalizer";
           AdditionalInfo :=
             ("Finalizers: " ++ fmt_v_strings (Unstructured.GetFinalizers obj)
              ++ ", DeletionTimestamp: " ++ Time.String t)%string |} ]
  | _, _ => []
  end.
Proof.
  unfold CheckStuckFinalizers.
  destruct (Unstructured.GetFinalizers obj) as [|f fs];
    destruct (Unstructured.GetDeletionTimestamp obj) as [t|]; reflexivity.
Qed.

(** C1. The stuck-finalizer check emits exactly one finding for an object
    whose finalizer list is non-empty and whose deletion timestamp is set,
    whatever the number of finalizers, and no finding for an object that
    misses either condition. *)
Theorem C1_stuck_finalizer_once_or_never (obj : Unstructured.t) :
  (Unstructured.GetFinalizers obj <> [] /\ Unstructured.GetDeletionTimestamp obj <> None
   -> List.length (CheckStuckFinalizers obj) = 1)
  /\ (Unstructured.GetFinalizers obj = [] \/ Unstructured.GetDeletionTimestamp obj = None
      -> CheckStuckFinalizers obj = [])
  /\ List.length (CheckStuckFinalizers obj) <= 1.
Proof.
  rewrite CheckStuckFinalizers_cases.
  destruct (Unstructured.GetFinalizers obj) as [|f fs];
    destruct (Unstructured.GetDeletionTimestamp obj) as [t|]; cbn;
    repeat split; intros; try tauto; try lia; try congruence.
  - destruct H as [H | H]; discriminate H.
Qed.

Lemma C1_witness :
  List.length (CheckStuckFinalizers p1) = 1 /\ CheckStuckFinalizers p2 = [].
Proof.
  split.
  - apply (proj1 (C1_stuck_finalizer_once_or_never p1)).
    split; discriminate.
  - apply (proj1 (proj2 (C1_stuck_finalizer_once_or_never p2))).
    left. reflexivity.
Defined.

(** ** The Owner Resolver and the invalid-owner check *)

Section Checks.
Context {schema : Schema}.
Variable dynamicClient : dynamic.Interface.

Lemma CheckInvalidOwnerReferences_loop_value (obj : Unstructured.t) (namespace : string)
    (owners : list OwnerReference.t) :
  forall results,
    value (CheckInvalidOwnerReferences_loop dynamicClient obj namespace owners results)
    = results ++ map (invalidOwnerResult obj)
                   (filter (dangling dynamicClient namespace) owners).
Proof.
  induction owners as [|owner rest IH]; intros results; cbn [CheckInvalidOwnerReferences_loop].
  - cbn. now rewrite app_nil_r.
  - rewrite value_bind. cbn [filter]. unfold dangling at 1.
    destruct (value (OwnerExists dynamicClient owner namespace)); cbn [negb].
    + apply IH.
    + rewrite IH, <- app_assoc. reflexivity.
Qed.

Lemma CheckInvalidOwnerReferences_value (obj : Unstructured.t) (namespace : string) :
  value (CheckInvalidOwnerReferences dynamicClient obj namespace)
  = map (invalidOwnerResult obj)
      (filter (dangling dynamicClient namespace) (Unstructured.GetOwnerReferences obj)).
Proof.
  unfold CheckInvalidOwnerReferences.
  now rewrite CheckInvalidOwnerReferences_loop_value.
Qed.

(** C2. The invalid-owner check emits one finding per owner reference that
    the Owner Resolver does not resolve, in the order of the references, and
    none for the others: with no owner reference there is no finding,
    and three dangling owners give three findings. *)
Theorem C2_one_finding_per_dangling_owner (obj : Unstructured.t) (namespace : string) :
  value (CheckInvalidOwnerReferences dynamicClient obj namespace)
  = map (invalidOwnerResult obj)
      (filter (dangling dynamicClient namespace) (Unstructured.GetOwnerReferences obj))
  /\ (Unstructured.GetOwnerReferences obj = []
      -> value (CheckInvalidOwnerReferences dynamicClient obj namespace) = [])
  /\ (forall o1 o2 o3,
        Unstructured.GetOwnerReferences obj = [o1; o2; o3] ->
        value (OwnerExists dynamicClient o1 namespace) = false ->
        value (OwnerExists dynamicClient o2 namespace) = false ->
        value (OwnerExists dynamicClient o3 namespace) = false ->
        List.length (value (CheckInvalidOwnerReferences dynamicClient obj namespace)) = 3).
Proof.
  rewrite CheckInvalidOwnerReferences_value. split; [reflexivity|]. split.
  - intros ->. reflexivity.
  - intros o1 o2 o3 -> H1 H2 H3. cbn [filter]. unfold dangling.
    rewrite H1, H2, H3. reflexivity.
Qed.

(** C3. The Owner Resolver answers false, without a request, when the
    apiVersion of the owner does not parse; otherwise it sends one get for
    the parsed group and version, the owner's kind as the resource name, the
    given namespace and the owner's name, and answers true exactly when that
    get succeeds. *)
Theorem C3_owner_exists (owner : OwnerReference.t) (namespace : string) :
  (forall err,
      ParseGroupVersion (OwnerReference.APIVersion owner) = inr err ->
      value (OwnerExists dynamicClient owner namespace) = false
      /\ Forall (fun e => isDynamicRequest e = false)
           (trace (OwnerExists dynamicClient owner namespace)))
  /\ (forall gv,
        ParseGroupVersion (OwnerReference.APIVersion owner) = inl gv ->
        let resource :=
          GroupVersionResource.mk (GroupVersion.Group gv) (GroupVersion.Version gv)
            (OwnerReference.Kind owner) in
        trace (OwnerExists dynamicClient owner namespace)
        = [ReqGet resource namespace (OwnerReference.Name owner)]
        /\ (value (OwnerExists dynamicClient owner namespace) = true
            <-> exists obj,
                dynamic.Get dynamicClient resource namespace (OwnerReference.Name owner)
                = inl obj)).
Proof.
  unfold OwnerExists. split.
  - intros err ->. split; [reflexivity|]. cbn. repeat constructor.
  - intros gv ->. cbn. split; [reflexivity|].
    destruct (dynamic.Get dynamicClient _ namespace _) as [obj|e]; cbn.
    + split; eauto.
    + split; [discriminate|]. intros [obj H]. discriminate H.
Qed.

End Checks.

Lemma C2_witness :
  value (CheckInvalidOwnerReferences (schema := apimachinery) sample_dynamic p2 "app") = []
  /\ List.length
       (value (CheckInvalidOwnerReferences (schema := apimachinery) sample_dynamic
                 orphan "app")) = 3.
Proof.
  split.
  - apply (proj1 (proj2 (C2_one_finding_per_dangling_owner
                           (schema := apimachinery) sample_dynamic p2 "app"))).
    reflexivity.
  - apply (proj2 (proj2 (C2_one_finding_per_dangling_owner
                           (schema := apimachinery) sample_dynamic orphan "app"))
             d1_ref (OwnerReference.mk "a/b/c" "Widget" "w1" "Y")
             (OwnerReference.mk "v1" "Service" "s1" "Z"));
      reflexivity.
Defined.

Lemma C3_witness :
  value (OwnerExists (schema := apimachinery) sample_dynamic
           (OwnerReference.mk "a/b/c" "Widget" "w1" "Y") "app") = false
  /\ trace (OwnerExists (schema := apimachinery) sample_dynamic d1_ref "app")
     = [ReqGet (GroupVersionResource.mk "apps" "v1" "Deployment") "app" "d1"].
Proof.
  split.
  - apply (proj1 (C3_owner_exists (schema := apimachinery) sample_dynamic
                    (OwnerReference.mk "a/b/c" "Widget" "w1" "Y") "app")
             (error.mk "unexpected GroupVersion string: a/b/c" false)).
    reflexivity.
  - apply (proj2 (C3_owner_exists (schema := apimachinery) sample_dynamic d1_ref "app")
             (GroupVersion.mk "apps" "v1")).
    reflexivity.
Defined.

(** ** The discovery steps *)

Lemma find_app_first {A : Type} (f : A -> bool) (l1 l2 : list A) :
  find f (l1 ++ l2) = match find f l1 with Some x => Some x | None => find f l2 end.
Proof.
  induction l1 as [|x l1 IH]; cbn; [reflexivity|].
  destruct (f x); [reflexivity | exact IH].
Qed.

Lemma resourceSupportsList_verbs_In (verbs : list string) :
  resourceSupportsList_verbs verbs = true <-> In "list"%string verbs.
Proof.
  induction verbs as [|verb rest IH]; cbn.
  - split; [discriminate | tauto].
  - destruct (String.eqb_spec verb "list") as [-> | Hne].
    + split; auto.
    + rewrite IH. split; [auto | intros [H | H]; [contradiction | exact H]].
Qed.

Lemma resourceSupportsList_resources_find (resource : GroupVersionResource.t)
    (apiResources : list APIResource.t) :
  resourceSupportsList_resources resource apiResources
  = option_map (fun a => resourceSupportsList_verbs (APIResource.Verbs a))
      (find (fun a => APIResource.Name a =? GroupVersionResource.Resource resource)%string
         apiResources).
Proof.
  induction apiResources as [|a rest IH]; cbn; [reflexivity|].
  destruct (APIResource.Name a =? GroupVersionResource.Resource resource)%string;
    [reflexivity | exact IH].
Qed.

Section Discovery.
Context {schema : Schema}.

Lemma resourceSupportsList_lists_entry (resource : GroupVersionResource.t)
    (catalog : list APIResourceList.t) :
  resourceSupportsList_lists resource catalog
  = match catalogEntry resource catalog with
    | Some a => resourceSupportsList_verbs (APIResource.Verbs a)
    | None => false
    end.
Proof.
  unfold catalogEntry.
  induction catalog as [|l rest IH]; cbn [resourceSupportsList_lists filter flat_map find];
    [reflexivity|].
  destruct (APIResourceList.GroupVersion l
            =? GroupVersion_String (GroupVersionResource.GroupVersion resource))%string.
  - cbn [flat_map]. rewrite find_app_first, resourceSupportsList_resources_find.
    destruct (find _ (APIResourceList.APIResources l)); cbn [option_map];
      [reflexivity | exact IH].
  - exact IH.
Qed.

Lemma resourceSupportsList_value (clientset : Clientset.t)
    (resource : GroupVersionResource.t) :
  value (resourceSupportsList clientset resource)
  = match snd (Clientset.ServerPreferredResources clientset) with
    | Some _ => false
    | None =>
        resourceSupportsList_lists resource
          (fst (Clientset.ServerPreferredResources clientset))
    end.
Proof.
  unfold resourceSupportsList, call_ServerPreferredResources. run.
  destruct (Clientset.ServerPreferredResources clientset) as [lists [err|]]; reflexivity.
Qed.

Lemma resourceSupportsList_trace (clientset : Clientset.t)
    (resource : GroupVersionResource.t) :
  Forall (fun e => isDynamicRequest e = false)
    (trace (resourceSupportsList clientset resource)).
Proof.
  unfold resourceSupportsList, call_ServerPreferredResources. run.
  destruct (Clientset.ServerPreferredResources clientset) as [lists [err|]];
    cbn; repeat constructor.
Qed.

Lemma GetNamespaceScopedResources_inner_filter (gv : GroupVersion.t)
    (apiResources : list APIResource.t) :
  forall resources,
    GetNamespaceScopedResources_inner gv apiResources resources
    = resources ++ map (fun a => WithResource gv (APIResource.Name a))
                     (filter APIResource.Namespaced apiResources).
Proof.
  induction apiResources as [|a rest IH]; intros resources;
    cbn [GetNamespaceScopedResources_inner filter].
  - cbn. now rewrite app_nil_r.
  - destruct (APIResource.Namespaced a).
    + rewrite IH, <- app_assoc. reflexivity.
    + apply IH.
Qed.

Lemma GetNamespaceScopedResources_loop_wellFormed (catalog : list APIResourceList.t) :
  wellFormed catalog ->
  forall resources,
    GetNamespaceScopedResources_loop catalog resources
    = inl (resources ++ namespacedTypes catalog).
Proof.
  unfold wellFormed, namespacedTypes.
  induction 1 as [|l rest [gv Hgv] _ IH]; intros resources;
    cbn [GetNamespaceScopedResources_loop flat_map].
  - now rewrite app_nil_r.
  - rewrite Hgv, IH, GetNamespaceScopedResources_inner_filter, <- app_assoc.
    reflexivity.
Qed.

Lemma GetNamespaceScopedResources_value (clientset : Clientset.t) :
  value (GetNamespaceScopedResources clientset)
  = match snd (Clientset.ServerPreferredNamespacedResources clientset) with
    | Some err =>
        if error.IsGroupDiscoveryFailedError err
        then GetNamespaceScopedResources_loop
               (fst (Clientset.ServerPreferredNamespacedResources clientset)) []
        else inr (Errorf "error fetching namespaced resources: " err)
    | None =>
        GetNamespaceScopedResources_loop
          (fst (Clientset.ServerPreferredNamespacedResources clientset)) []
    end.
Proof.
  unfold GetNamespaceScopedResources, call_ServerPreferredNamespacedResources. run.
  destruct (Clientset.ServerPreferredNamespacedResources clientset) as [lists [err|]];
    cbn [fst snd]; [|reflexivity].
  destruct (error.IsGroupDiscoveryFailedError err); run; reflexivity.
Qed.

Lemma GetNamespaceScopedResources_trace (clientset : Clientset.t) :
  Forall (fun e => isDynamicRequest e = false)
    (trace (GetNamespaceScopedResources clientset)).
Proof.
  unfold GetNamespaceScopedResources, call_ServerPreferredNamespacedResources. run.
  destruct (Clientset.ServerPreferredNamespacedResources clientset) as [lists [err|]];
    [destruct (error.IsGroupDiscoveryFailedError err)|]; cbn; repeat constructor.
Qed.

Lemma GetNamespaces_value (clientset : Clientset.t) :
  value (GetNamespaces clientset)
  = match Clientset.NamespacesList clientset with
    | inr err => inr err
    | inl items => inl (map Namespace.GetName items)
    end.
Proof.
  unfold GetNamespaces, call_NamespacesList. run.
  destruct (Clientset.NamespacesList clientset); reflexivity.
Qed.

Lemma GetNamespaces_trace (clientset : Clientset.t) :
  trace (GetNamespaces clientset) = [ReqNamespacesList].
Proof.
  unfold GetNamespaces, call_NamespacesList. run.
  destruct (Clientset.NamespacesList clientset); reflexivity.
Qed.

End Discovery.

(** ** The traversal *)

Section Traversal.
Context {schema : Schema}.
Variable clientset : Clientset.t.
Variable dynamicClient : dynamic.Interface.

Lemma ScanNamespaceResources_objects_value (ns : string)
    (resource : GroupVersionResource.t) (objects : list string) :
  forall results,
    value (ScanNamespaceResources_objects dynamicClient ns resource objects results)
    = results ++ flat_map (contribution dynamicClient ns resource) objects.
Proof.
  induction objects as [|objectName rest IH]; intros results;
    cbn [ScanNamespaceResources_objects flat_map].
  - cbn. now rewrite app_nil_r.
  - unfold contribution at 1, call_Get. run.
    destruct (dynamic.Get dynamicClient resource ns objectName) as [obj|err]; run.
    + unfold findings.
      destruct (value (CheckInvalidOwnerReferences dynamicClient obj ns)) as [|r rs];
        cbn [List.length Nat.ltb Nat.leb]; run; rewrite IH.
      * now rewrite app_nil_r, app_assoc.
      * now rewrite !app_assoc.
    + apply IH.
Qed.

Lemma contribution_fetched (ns : string) (resource : GroupVersionResource.t)
    (names : list string) :
  flat_map (contribution dynamicClient ns resource) names
  = flat_map (findings dynamicClient ns)
      (flat_map (fun name =>
         match dynamic.Get dynamicClient resource ns name with
         | inl obj => [obj]
         | inr _ => []
         end) names).
Proof.
  induction names as [|name rest IH]; cbn [flat_map]; [reflexivity|].
  rewrite flat_map_app, <- IH. unfold contribution at 1.
  destruct (dynamic.Get dynamicClient resource ns name); cbn [flat_map];
    [now rewrite app_nil_r | reflexivity].
Qed.

Lemma GetNamespaceObjects_value (ns : string) (resource : GroupVersionResource.t)
    (apiVersion : string) :
  value (GetNamespaceObjects dynamicClient ns resource apiVersion)
  = match dynamic.List dynamicClient resource ns with
    | inr err =>
        inr (Errorf ("error listing objects for resource "
                     ++ GroupVersionResource.Resource resource
                     ++ " in namespace " ++ ns ++ ": ")%string err)
    | inl items => inl (map Unstructured.GetName items)
    end.
Proof.
  unfold GetNamespaceObjects, call_List. run.
  destruct (dynamic.List dynamicClient resource ns); reflexivity.
Qed.

Lemma ScanNamespaceResources_resources_value (ns : string)
    (resources : list GroupVersionResource.t) :
  forall results,
    value (ScanNamespaceResources_resources clientset dynamicClient ns resources results)
    = results
      ++ flat_map (fun resource =>
           flat_map (findings dynamicClient ns) (fetched dynamicClient ns resource))
           (filter (fun resource => value (resourceSupportsList clientset resource))
              resources).
Proof.
  induction resources as [|resource rest IH]; intros results;
    cbn [ScanNamespaceResources_resources filter].
  - cbn. now rewrite app_nil_r.
  - run. destruct (value (resourceSupportsList clientset resource)); cbn [negb].
    + run. rewrite GetNamespaceObjects_value. cbn [flat_map]. unfold fetched at 1.
      destruct (dynamic.List dynamicClient resource ns) as [items|err]; run.
      * rewrite IH, ScanNamespaceResources_objects_value, contribution_fetched.
        now rewrite app_assoc.
      * apply IH.
    + apply IH.
Qed.

Lemma ScanNamespaceResources_namespaces_value
    (resources : list GroupVersionResource.t) (namespaces : list string) :
  forall results,
    value (ScanNamespaceResources_namespaces clientset dynamicClient resources
             namespaces results)
    = results ++ traversal clientset dynamicClient resources namespaces.
Proof.
  unfold traversal.
  induction namespaces as [|ns rest IH]; intros results;
    cbn [ScanNamespaceResources_namespaces flat_map].
  - cbn. now rewrite app_nil_r.
  - run. rewrite IH, ScanNamespaceResources_resources_value. now rewrite app_assoc.
Qed.

(** The outcome of a pass, by the outcome of its two discovery steps. *)
Lemma ScanNamespaceResources_value :
  value (ScanNamespaceResources clientset dynamicClient)
  = match value (GetNamespaceScopedResources clientset) with
    | inr err => ([], Some err)
    | inl resources =>
        match value (GetNamespaces clientset) with
        | inr err => ([], Some err)
        | inl namespaces =>
            (traversal clientset dynamicClient resources namespaces, None)
        end
    end.
Proof.
  unfold ScanNamespaceResources. run.
  destruct (value (GetNamespaceScopedResources clientset)) as [resources|err]; run;
    [|reflexivity].
  destruct (value (GetNamespaces clientset)) as [namespaces|err]; run; [|reflexivity].
  now rewrite ScanNamespaceResources_namespaces_value.
Qed.

End Traversal.

(** ** Requests sent during a pass *)

Section Requests.
Context {schema : Schema}.
Variable clientset : Clientset.t.
Variable dynamicClient : dynamic.Interface.

Lemma notList_gated (l : list Event) :
  Forall notList l -> Forall (gated clientset) l.
Proof.
  apply Forall_impl. intros [] H; cbn in *; try exact I. contradiction.
Qed.

Lemma quiet_notList (l : list Event) :
  Forall (fun e => isDynamicRequest e = false) l -> Forall notList l.
Proof.
  apply Forall_impl. intros [] H; cbn in *; try exact I. discriminate H.
Qed.

Lemma OwnerExists_notList (owner : OwnerReference.t) (namespace : string) :
  Forall notList (trace (OwnerExists dynamicClient owner namespace)).
Proof.
  unfold OwnerExists, call_Get.
  destruct (ParseGroupVersion (OwnerReference.APIVersion owner)); run;
    repeat constructor.
Qed.

Lemma CheckInvalidOwnerReferences_loop_notList (obj : Unstructured.t)
    (namespace : string) (owners : list OwnerReference.t) :
  forall results,
    Forall notList
      (trace (CheckInvalidOwnerReferences_loop dynamicClient obj namespace owners results)).
Proof.
  induction owners as [|owner rest IH]; intros results;
    cbn [CheckInvalidOwnerReferences_loop].
  - constructor.
  - run. apply Forall_app. split; [apply OwnerExists_notList|].
    destruct (negb _); apply IH.
Qed.

Lemma ScanNamespaceResources_objects_notList (ns : string)
    (resource : GroupVersionResource.t) (objects : list string) :
  forall results,
    Forall notList
      (trace (ScanNamespaceResources_objects dynamicClient ns resource objects results)).
Proof.
  induction objects as [|objectName rest IH]; intros results;
    cbn [ScanNamespaceResources_objects].
  - constructor.
  - unfold call_Get. run. constructor; [exact I|].
    destruct (dynamic.Get dynamicClient resource ns objectName) as [obj|err]; run.
    + repeat (apply Forall_app; split).
      * destruct (Nat.ltb 0 _); repeat constructor.
      * apply CheckInvalidOwnerReferences_loop_notList.
      * destruct (Nat.ltb 0 _); repeat constructor.
      * apply IH.
    + constructor; [exact I | apply IH].
Qed.

Lemma ScanNamespaceResources_resources_gated (ns : string)
    (resources : list GroupVersionResource.t) :
  forall results,
    Forall (gated clientset)
      (trace (ScanNamespaceResources_resources clientset dynamicClient ns
                resources results)).
Proof.
  induction resources as [|resource rest IH]; intros results;
    cbn [ScanNamespaceResources_resources].
  - constructor.
  - run. apply Forall_app. split.
    + apply notList_gated, quiet_notList, resourceSupportsList_trace.
    + destruct (value (resourceSupportsList clientset resource)) eqn:Hgate; cbn [negb].
      * unfold GetNamespaceObjects, call_List. run. constructor; [exact Hgate|].
        destruct (dynamic.List dynamicClient resource ns) as [items|err]; run.
        -- apply Forall_app. split; [|apply IH].
           apply notList_gated, ScanNamespaceResources_objects_notList.
        -- constructor; [exact I | apply IH].
      * apply IH.
Qed.

Lemma ScanNamespaceResources_namespaces_gated
    (resources : list GroupVersionResource.t) (namespaces : list string) :
  forall results,
    Forall (gated clientset)
      (trace (ScanNamespaceResources_namespaces clientset dynamicClient resources
                namespaces results)).
Proof.
  induction namespaces as [|ns rest IH]; intros results;
    cbn [ScanNamespaceResources_namespaces].
  - constructor.
  - run. apply Forall_app. split;
      [apply ScanNamespaceResources_resources_gated | apply IH].
Qed.

Lemma ScanNamespaceResources_gated :
  Forall (gated clientset) (trace (ScanNamespaceResources clientset dynamicClient)).
Proof.
  unfold ScanNamespaceResources. run. apply Forall_app. split.
  - apply notList_gated, quiet_notList, GetNamespaceScopedResources_trace.
  - destruct (value (GetNamespaceScopedResources clientset)) as [resources|err]; run.
    + rewrite GetNamespaces_trace. constructor; [exact I|].
      destruct (value (GetNamespaces clientset)) as [namespaces|err]; run.
      * apply Forall_app. split; [apply ScanNamespaceResources_namespaces_gated|].
        repeat constructor.
      * repeat constructor.
    + repeat constructor.
Qed.

(** When a discovery step fails the pass sends nothing through the dynamic
    client. *)
Lemma ScanNamespaceResources_abort_trace :
  snd (value (ScanNamespaceResources clientset dynamicClient)) <> None ->
  Forall (fun e => isDynamicRequest e = false)
    (trace (ScanNamespaceResources clientset dynamicClient)).
Proof.
  rewrite ScanNamespaceResources_value. unfold ScanNamespaceResources. run.
  intros Herr. apply Forall_app. split; [apply GetNamespaceScopedResources_trace|].
  destruct (value (GetNamespaceScopedResources clientset)) as [resources|err]; run.
  - rewrite GetNamespaces_trace. constructor; [reflexivity|].
    destruct (value (GetNamespaces clientset)) as [namespaces|err]; run.
    + cbn in Herr. congruence.
    + repeat constructor.
  - repeat constructor.
Qed.

End Requests.

(** ** The capability gate *)

(** C4. Defect of the code, run on the sample cluster while one API group
    cannot be discovered.  The re-queried catalog lists the verb "list" for
    pods, and without the failed group the gate accepts pods; with it the
    catalog step goes on with the groups that were read, while the gate
    refuses pods, as it refuses every type. *)
Theorem C4_gate_refuses_listed_type_on_partial_failure :
  catalogHasList (schema := apimachinery) pods
    (fst (Clientset.ServerPreferredResources partial_clientset))
  /\ value (resourceSupportsList (schema := apimachinery) sample_clientset pods) = true
  /\ value (GetNamespaceScopedResources (schema := apimachinery) partial_clientset)
     = inl [pods; WithResource (GroupVersion.mk "" "v1") "bindings"; replicasets]
  /\ value (resourceSupportsList (schema := apimachinery) partial_clientset pods) = false
  /\ forall resource,
       value (resourceSupportsList (schema := apimachinery) partial_clientset resource)
       = false.
Proof.
  split.
  { exists (APIResource.mk "pods" true ["get"; "list"; "delete"]%string).
    split; [reflexivity|]. cbn. auto. }
  repeat split.
Qed.

Section Gate.
Context {schema : Schema}.
Variable clientset : Clientset.t.
Variable dynamicClient : dynamic.Interface.

(** What the gate does as written.  It answers true exactly when the
    re-query of the discovery catalog returns no error and the catalog entry
    of the type lists the verb "list".  A type for which it answers false is
    skipped: the traversal continues with the results it had, the re-query is
    the only request made for the type, and the pass never sends a list
    request for it. *)
Lemma resourceSupportsList_as_written (resource : GroupVersionResource.t) :
  (value (resourceSupportsList clientset resource) = true
   <-> snd (Clientset.ServerPreferredResources clientset) = None
       /\ catalogHasList resource (fst (Clientset.ServerPreferredResources clientset)))
  /\ (value (resourceSupportsList clientset resource) = false ->
      (forall ns rest results,
          value (ScanNamespaceResources_resources clientset dynamicClient ns
                   (resource :: rest) results)
          = value (ScanNamespaceResources_resources clientset dynamicClient ns
                     rest results)
          /\ trace (ScanNamespaceResources_resources clientset dynamicClient ns
                      (resource :: rest) results)
             = trace (resourceSupportsList clientset resource)
               ++ trace (ScanNamespaceResources_resources clientset dynamicClient ns
                           rest results))
      /\ Forall (fun e => isDynamicRequest e = false)
           (trace (resourceSupportsList clientset resource))
      /\ (forall ns,
            ~ In (ReqList resource ns)
                (trace (ScanNamespaceResources clientset dynamicClient)))).
Proof.
  split.
  - rewrite resourceSupportsList_value, resourceSupportsList_lists_entry.
    unfold catalogHasList.
    destruct (snd (Clientset.ServerPreferredResources clientset)) as [err|].
    + split; [discriminate | intros [H _]; discriminate H].
    + destruct (catalogEntry resource _) as [a|].
      * rewrite resourceSupportsList_verbs_In. split.
        -- intros H. split; [reflexivity | eauto].
        -- intros [_ [a' [Ha' Hin]]]. now inversion Ha'; subst.
      * split; [discriminate | intros [_ [a' [Ha' _]]]; discriminate Ha'].
  - intros Hgate. repeat split.
    + cbn [ScanNamespaceResources_resources]. run. now rewrite Hgate.
    + cbn [ScanNamespaceResources_resources]. run. now rewrite Hgate.
    + apply resourceSupportsList_trace.
    + intros ns Hin.
      pose proof (ScanNamespaceResources_gated clientset dynamicClient) as Hall.
      rewrite Forall_forall in Hall. specialize (Hall _ Hin).
      unfold gated in Hall. rewrite Hgate in Hall. discriminate Hall.
Qed.

End Gate.

Lemma bindings_are_skipped :
  value (ScanNamespaceResources_resources (schema := apimachinery) sample_clientset
           sample_dynamic "app" [WithResource (GroupVersion.mk "" "v1") "bindings"] [])
  = []
  /\ ~ In (ReqList (WithResource (GroupVersion.mk "" "v1") "bindings") "app")
         (trace (ScanNamespaceResources (schema := apimachinery) sample_clientset
                   sample_dynamic)).
Proof.
  pose proof (proj2 (resourceSupportsList_as_written (schema := apimachinery)
                       sample_clientset sample_dynamic
                       (WithResource (GroupVersion.mk "" "v1") "bindings"))
                eq_refl) as [Hskip [_ Hnever]].
  split.
  - rewrite (proj1 (Hskip "app"%string [] [])). reflexivity.
  - apply Hnever.
Qed.

(** ** Failures of discovery *)

Section Failures.
Context {schema : Schema}.
Variable clientset : Clientset.t.
Variable dynamicClient : dynamic.Interface.

(** When the discovery of resource types fails for some groups only, the
    catalog step returns the namespaced types of the groups that were read,
    and the pass does not abort for it: it ends with an error only if the
    namespaces cannot be listed.  Which of the types are then visited is
    left to the capability gate. *)
Lemma partial_discovery_is_not_fatal
    (catalog : list APIResourceList.t) (err : error.t) :
  Clientset.ServerPreferredNamespacedResources clientset = (catalog, Some err) ->
  error.IsGroupDiscoveryFailedError err = true ->
  wellFormed catalog ->
  value (GetNamespaceScopedResources clientset) = inl (namespacedTypes catalog)
  /\ value (ScanNamespaceResources clientset dynamicClient)
     = match Clientset.NamespacesList clientset with
       | inr nsErr => ([], Some nsErr)
       | inl items =>
           (traversal clientset dynamicClient (namespacedTypes catalog)
              (map Namespace.GetName items), None)
       end.
Proof.
  intros Hdisc Hpartial Hwf.
  assert (Htypes : value (GetNamespaceScopedResources clientset)
                   = inl (namespacedTypes catalog)).
  { rewrite GetNamespaceScopedResources_value, Hdisc. cbn [fst snd].
    rewrite Hpartial. now rewrite GetNamespaceScopedResources_loop_wellFormed. }
  split; [exact Htypes|].
  rewrite ScanNamespaceResources_value, Htypes, GetNamespaces_value.
  destruct (Clientset.NamespacesList clientset); reflexivity.
Qed.


End Failures.

(** C5. Defect of the code, run on the sample cluster while one API group
    cannot be discovered.  The catalog step returns the types of the groups
    that were read and the pass returns no error, but it does not proceed
    with these groups: the gate refuses every type, no list and no get is
    sent, and the stuck pod that the pass reports without the failed group
    is not found. *)
Theorem C5_partial_discovery_pass_visits_nothing :
  value (GetNamespaceScopedResources (schema := apimachinery) partial_clientset)
  = inl [pods; WithResource (GroupVersion.mk "" "v1") "bindings"; replicasets]
  /\ value (ScanNamespaceResources (schema := apimachinery) partial_clientset
              sample_dynamic) = ([], None)
  /\ Forall (fun e => isDynamicRequest e = false)
       (trace (ScanNamespaceResources (schema := apimachinery) partial_clientset
                 sample_dynamic))
  /\ In (mkResult "app" "Pod" "p1" "Stuck finalizer"
           "Finalizers: [a.io/cleanup], DeletionTimestamp: 2024-05-01 10:00:00 +0000 UTC")
       (fst (value (ScanNamespaceResources (schema := apimachinery) sample_clientset
                      sample_dynamic))).
Proof.
  split; [reflexivity|]. split; [reflexivity|]. split.
  - cbn. repeat constructor.
  - cbn. left. reflexivity.
Qed.



(** ** Failures of single items *)

Section PerItem.
Context {schema : Schema}.
Variable clientset : Clientset.t.
Variable dynamicClient : dynamic.Interface.

Lemma fetched_list_error (ns : string) (resource : GroupVersionResource.t)
    (err : error.t) :
  dynamic.List dynamicClient resource ns = inr err ->
  fetched dynamicClient ns resource = [].
Proof. unfold fetched. now intros ->. Qed.

(** C7. Whatever the dynamic client answers, a pass whose two discovery
    steps succeed returns no error.  A name whose get fails and a resource
    type whose listing fails add nothing to the results, and the loops go on
    with the items that follow as if the failing item were not there. *)
Theorem C7_item_failures_are_skipped :
  (forall resources namespaces,
      value (GetNamespaceScopedResources clientset) = inl resources ->
      value (GetNamespaces clientset) = inl namespaces ->
      snd (value (ScanNamespaceResources clientset dynamicClient)) = None)
  /\ (forall ns resource before name after results err,
        dynamic.Get dynamicClient resource ns name = inr err ->
        value (ScanNamespaceResources_objects dynamicClient ns resource
                 (before ++ name :: after) results)
        = value (ScanNamespaceResources_objects dynamicClient ns resource
                   (before ++ after) results))
  /\ (forall ns before resource after results err,
        dynamic.List dynamicClient resource ns = inr err ->
        value (ScanNamespaceResources_resources clientset dynamicClient ns
                 (before ++ resource :: after) results)
        = value (ScanNamespaceResources_resources clientset dynamicClient ns
                   (before ++ after) results)).
Proof.
  repeat split.
  - intros resources namespaces Hres Hns.
    now rewrite ScanNamespaceResources_value, Hres, Hns.
  - intros ns resource before name after results err Hget.
    rewrite !ScanNamespaceResources_objects_value, !flat_map_app. cbn [flat_map].
    unfold contribution at 2. now rewrite Hget.
  - intros ns before resource after results err Hlist.
    rewrite !ScanNamespaceResources_resources_value, !filter_app, !flat_map_app.
    cbn [filter].
    destruct (value (resourceSupportsList clientset resource)); [|reflexivity].
    cbn [flat_map]. now rewrite (fetched_list_error _ _ Hlist).
Qed.

(** C8. The findings of a pass that returns no error are the findings of the
    health checks for every fetched object, concatenated in traversal order:
    by namespace, then by resource type, then by listed name. *)
Theorem C8_findings_in_traversal_order :
  snd (value (ScanNamespaceResources clientset dynamicClient)) = None ->
  exists resources namespaces,
    value (GetNamespaceScopedResources clientset) = inl resources
    /\ value (GetNamespaces clientset) = inl namespaces
    /\ fst (value (ScanNamespaceResources clientset dynamicClient))
       = flat_map (fun ns =>
           flat_map (fun resource =>
             flat_map (fun obj =>
               CheckStuckFinalizers obj
               ++ value (CheckInvalidOwnerReferences dynamicClient obj ns))
               (fetched dynamicClient ns resource))
             (filter (fun resource => value (resourceSupportsList clientset resource))
                resources))
           namespaces.
Proof.
  rewrite ScanNamespaceResources_value.
  destruct (value (GetNamespaceScopedResources clientset)) as [resources|err];
    [|discriminate].
  destruct (value (GetNamespaces clientset)) as [namespaces|err]; [|discriminate].
  intros _. exists resources, namespaces. repeat split.
Qed.

End PerItem.

Lemma C7_witness :
  snd (value (ScanNamespaceResources (schema := apimachinery) sample_clientset
                flaky_dynamic)) = None
  /\ value (ScanNamespaceResources_objects (schema := apimachinery) flaky_dynamic
              "app" pods (["p1"] ++ "p2" :: []) [])
     = value (ScanNamespaceResources_objects (schema := apimachinery) flaky_dynamic
                "app" pods (["p1"] ++ []) [])
  /\ value (ScanNamespaceResources_resources (schema := apimachinery) sample_clientset
              flaky_dynamic "app" ([] ++ replicasets :: [pods]) [])
     = value (ScanNamespaceResources_resources (schema := apimachinery) sample_clientset
                flaky_dynamic "app" ([] ++ [pods]) []).
Proof.
  destruct (C7_item_failures_are_skipped (schema := apimachinery) sample_clientset
              flaky_dynamic) as [Hpass [Hget Hlist]].
  split; [|split].
  - apply (Hpass [pods; WithResource (GroupVersion.mk "" "v1") "bindings"; replicasets]
             ["app"; "kube-system"]%string); reflexivity.
  - apply (Hget "app"%string pods ["p1"%string] "p2"%string [] [] timeout).
    reflexivity.
  - apply (Hlist "app"%string [] replicasets [pods] [] timeout). reflexivity.
Defined.

Lemma C8_witness :
  exists resources namespaces,
    value (GetNamespaceScopedResources (schema := apimachinery) sample_clientset)
    = inl resources
    /\ value (GetNamespaces sample_clientset) = inl namespaces
    /\ fst (value (ScanNamespaceResources (schema := apimachinery) sample_clientset
                     sample_dynamic))
       = flat_map (fun ns =>
           flat_map (fun resource =>
             flat_map (fun obj =>
               CheckStuckFinalizers obj
               ++ value (CheckInvalidOwnerReferences (schema := apimachinery)
                           sample_dynamic obj ns))
               (fetched sample_dynamic ns resource))
             (filter (fun resource =>
                        value (resourceSupportsList (schema := apimachinery)
                                 sample_clientset resource))
                resources))
           namespaces.
Proof.
  apply (C8_findings_in_traversal_order (schema := apimachinery) sample_clientset
           sample_dynamic).
  reflexivity.
Defined.

(** ** Two passes over an unchanged cluster *)

Lemma bind_ext {A B : Type} (m : M A) (k1 k2 : A -> M B) :
  (forall a, k1 a = k2 a) -> bind m k1 = bind m k2.
Proof.
  intros H. unfold bind. destruct m as [t a]. now rewrite H.
Qed.

Lemma Permutation_filter_same {A : Type} (f : A -> bool) (l l' : list A) :
  Permutation l l' -> Permutation (filter f l) (filter f l').
Proof.
  induction 1 as [|x l l' _ IH|x y l|l l' l'' _ IH1 _ IH2]; cbn.
  - constructor.
  - destruct (f x); [now constructor | exact IH].
  - destruct (f x), (f y); try apply Permutation_refl. apply perm_swap.
  - now transitivity (filter f l').
Qed.

Lemma Permutation_flat_map_pointwise {A B : Type} (f g : A -> list B) (l : list A) :
  (forall x, Permutation (f x) (g x)) ->
  Permutation (flat_map f l) (flat_map g l).
Proof.
  intros H. induction l as [|x l IH]; cbn; [constructor|].
  now apply Permutation_app.
Qed.

Lemma Permutation_flat_map_both {A B : Type} (f g : A -> list B) (l l' : list A) :
  Permutation l l' -> (forall x, Permutation (f x) (g x)) ->
  Permutation (flat_map f l) (flat_map g l').
Proof.
  intros Hl H. transitivity (flat_map f l').
  - now apply Permutation_flat_map.
  - now apply Permutation_flat_map_pointwise.
Qed.

Lemma sameList_refl (l : APIResourceList.t) : sameList l l.
Proof. split; [reflexivity | apply Permutation_refl]. Qed.

Lemma sameList_sym (l1 l2 : APIResourceList.t) : sameList l1 l2 -> sameList l2 l1.
Proof. intros [Hg Hp]. split; [now symmetry | now apply Permutation_sym]. Qed.

Lemma sameCatalog_refl (catalog : list APIResourceList.t) : sameCatalog catalog catalog.
Proof.
  induction catalog as [|l catalog IH]; constructor; [apply sameList_refl | exact IH].
Qed.

Lemma sameCatalog_sym (catalog1 catalog2 : list APIResourceList.t) :
  sameCatalog catalog1 catalog2 -> sameCatalog catalog2 catalog1.
Proof.
  induction 1 as [|l1 l2 c1 c2 Hl _ IH|l1 l2 c|c1 c2 c3 _ IH1 _ IH2].
  - constructor.
  - constructor; [now apply sameList_sym | exact IH].
  - apply sameCatalog_swap.
  - now apply sameCatalog_trans with c2.
Qed.

Lemma sameCatalog_entryOf (catalog1 catalog2 : list APIResourceList.t)
    (groupVersion : string) (a : APIResource.t) :
  sameCatalog catalog1 catalog2 ->
  entryOf catalog1 groupVersion a -> entryOf catalog2 groupVersion a.
Proof.
  unfold entryOf.
  induction 1 as [|l1 l2 c1 c2 [Hg Hp] _ IH|l1 l2 c|c1 c2 c3 _ IH1 _ IH2].
  - auto.
  - intros (l & [<- | Hin] & Hgv & Ha).
    + exists l2. repeat split; [now left | congruence |].
      now apply (Permutation_in _ Hp).
    + destruct IH as (l' & Hin' & Hgv' & Ha'); [now exists l|].
      exists l'. repeat split; [now right | assumption..].
  - intros (l & Hin & Hgv & Ha). exists l. repeat split; try assumption.
    cbn in *. tauto.
  - auto.
Qed.

Lemma sameCatalog_consistent (catalog1 catalog2 : list APIResourceList.t) :
  sameCatalog catalog1 catalog2 -> consistent catalog1 -> consistent catalog2.
Proof.
  intros Hsame Hc groupVersion a a' Ha Ha' Hname.
  apply sameCatalog_sym in Hsame.
  apply (Hc groupVersion); [| |exact Hname];
    now apply (sameCatalog_entryOf Hsame).
Qed.

Section Order.
Context {schema : Schema}.

Lemma sameCatalog_wellFormed (catalog1 catalog2 : list APIResourceList.t) :
  sameCatalog catalog1 catalog2 -> wellFormed catalog1 -> wellFormed catalog2.
Proof.
  unfold wellFormed.
  induction 1 as [|l1 l2 c1 c2 [Hg Hp] _ IH|l1 l2 c|c1 c2 c3 _ IH1 _ IH2].
  - auto.
  - intros Hwf. inversion Hwf as [|? ? Hl Hrest]; subst.
    constructor; [now rewrite <- Hg | now apply IH].
  - intros Hwf. inversion Hwf as [|? ? H1 Hrest]; subst.
    inversion Hrest as [|? ? H2 Hc]; subst. now repeat constructor.
  - auto.
Qed.

Lemma sameCatalog_namespacedTypes (catalog1 catalog2 : list APIResourceList.t) :
  sameCatalog catalog1 catalog2 ->
  Permutation (namespacedTypes catalog1) (namespacedTypes catalog2).
Proof.
  unfold namespacedTypes.
  induction 1 as [|l1 l2 c1 c2 [Hg Hp] _ IH|l1 l2 c|c1 c2 c3 _ IH1 _ IH2];
    cbn [flat_map].
  - constructor.
  - apply Permutation_app; [|exact IH]. rewrite Hg.
    destruct (ParseGroupVersion (APIResourceList.GroupVersion l2)); [|constructor].
    now apply Permutation_map, Permutation_filter_same.
  - rewrite !app_assoc. apply Permutation_app_tail, Permutation_app_comm.
  - now transitivity
      (flat_map (fun l =>
         match ParseGroupVersion (APIResourceList.GroupVersion l) with
         | inl gv =>
             map (fun a => WithResource gv (APIResource.Name a))
               (filter APIResource.Namespaced (APIResourceList.APIResources l))
         | inr _ => []
         end) c2).
Qed.

Lemma GetNamespaceScopedResources_loop_inl (catalog : list APIResourceList.t) :
  forall resources types,
    GetNamespaceScopedResources_loop catalog resources = inl types ->
    wellFormed catalog.
Proof.
  unfold wellFormed.
  induction catalog as [|l rest IH]; intros resources types;
    cbn [GetNamespaceScopedResources_loop]; [constructor|].
  destruct (ParseGroupVersion (APIResourceList.GroupVersion l)) as [gv|err] eqn:Hgv;
    [|discriminate].
  intros H. constructor; [now exists gv | now apply IH in H].
Qed.

(** With a consistent catalog the gate does not depend on the order of the
    catalog: it accepts the types for which some entry has the verb. *)
Lemma resourceSupportsList_lists_listable (catalog : list APIResourceList.t)
    (resource : GroupVersionResource.t) :
  consistent catalog ->
  resourceSupportsList_lists resource catalog = true <-> listable catalog resource.
Proof.
  intros Hc. rewrite resourceSupportsList_lists_entry. unfold catalogEntry, listable.
  set (gvs := GroupVersion_String (GroupVersionResource.GroupVersion resource)).
  set (named := fun a : APIResource.t =>
                  (APIResource.Name a =? GroupVersionResource.Resource resource)%string).
  set (entries := flat_map APIResourceList.APIResources
                    (filter (fun l => (APIResourceList.GroupVersion l =? gvs)%string)
                       catalog)).
  assert (Hentries : forall a, In a entries <-> entryOf catalog gvs a).
  { intros a. unfold entries, entryOf. rewrite in_flat_map. split.
    - intros (l & Hl & Ha). apply filter_In in Hl. destruct Hl as [Hl Hg].
      apply String.eqb_eq in Hg. eauto.
    - intros (l & Hl & Hg & Ha). exists l. split; [|exact Ha].
      apply filter_In. split; [exact Hl | now apply String.eqb_eq]. }
  destruct (find named entries) as [first|] eqn:Hfind.
  - apply find_some in Hfind. destruct Hfind as [Hin Hname].
    apply String.eqb_eq in Hname. rewrite resourceSupportsList_verbs_In. split.
    + intros Hverb. exists first. repeat split; [now apply Hentries | assumption..].
    + intros (a & Ha & Hn & Hverb).
      rewrite (Hc gvs first a); [exact Hverb | now apply Hentries | exact Ha |].
      congruence.
  - split; [discriminate|]. intros (a & Ha & Hn & _).
    apply Hentries in Ha. apply (find_none _ _ Hfind) in Ha.
    unfold named in Ha. apply String.eqb_neq in Ha. contradiction.
Qed.

Section Unchanged.
Variables clientset1 clientset2 : Clientset.t.
Variables dynamicClient1 dynamicClient2 : dynamic.Interface.
Hypothesis unchanged :
  unchangedCluster clientset1 dynamicClient1 clientset2 dynamicClient2.
Hypothesis described_once :
  consistent (fst (Clientset.ServerPreferredResources clientset1)).

Lemma OwnerExists_same (owner : OwnerReference.t) (namespace : string) :
  OwnerExists dynamicClient1 owner namespace
  = OwnerExists dynamicClient2 owner namespace.
Proof.
  destruct unchanged as (_ & _ & _ & _ & _ & _ & same_Get).
  unfold OwnerExists, call_Get.
  destruct (ParseGroupVersion (OwnerReference.APIVersion owner)); [|reflexivity].
  now rewrite same_Get.
Qed.

Lemma CheckInvalidOwnerReferences_loop_same (obj : Unstructured.t)
    (namespace : string) (owners : list OwnerReference.t) :
  forall results,
    CheckInvalidOwnerReferences_loop dynamicClient1 obj namespace owners results
    = CheckInvalidOwnerReferences_loop dynamicClient2 obj namespace owners results.
Proof.
  induction owners as [|owner rest IH]; intros results;
    cbn [CheckInvalidOwnerReferences_loop]; [reflexivity|].
  rewrite OwnerExists_same. apply bind_ext. intros ok.
  destruct (negb ok); apply IH.
Qed.

Lemma findings_same (ns : string) (obj : Unstructured.t) :
  findings dynamicClient1 ns obj = findings dynamicClient2 ns obj.
Proof.
  unfold findings, CheckInvalidOwnerReferences.
  now rewrite CheckInvalidOwnerReferences_loop_same.
Qed.

Lemma fetched_same (ns : string) (resource : GroupVersionResource.t) :
  Permutation (fetched dynamicClient1 ns resource) (fetched dynamicClient2 ns resource).
Proof.
  destruct unchanged as (_ & _ & _ & _ & _ & same_List & same_Get).
  unfold fetched. specialize (same_List resource ns). unfold sameAnswer in same_List.
  destruct (dynamic.List dynamicClient1 resource ns) as [items1|err1],
           (dynamic.List dynamicClient2 resource ns) as [items2|err2];
    try contradiction; [|constructor].
  apply Permutation_flat_map_both.
  - now apply Permutation_map.
  - intros name. rewrite same_Get. apply Permutation_refl.
Qed.

Lemma resourceSupportsList_same (resource : GroupVersionResource.t) :
  value (resourceSupportsList clientset1 resource)
  = value (resourceSupportsList clientset2 resource).
Proof.
  destruct unchanged as (_ & _ & Hcatalog & Herr & _).
  rewrite !resourceSupportsList_value, <- Herr.
  destruct (snd (Clientset.ServerPreferredResources clientset1)); [reflexivity|].
  pose proof (resourceSupportsList_lists_listable resource described_once) as H1.
  pose proof (resourceSupportsList_lists_listable resource
                (sameCatalog_consistent Hcatalog described_once)) as H2.
  assert (Hboth : listable (fst (Clientset.ServerPreferredResources clientset1)) resource
                  <-> listable (fst (Clientset.ServerPreferredResources clientset2))
                        resource).
  { unfold listable. split; intros (a & Ha & Hrest); exists a; (split; [|exact Hrest]).
    - now apply (sameCatalog_entryOf Hcatalog).
    - now apply (sameCatalog_entryOf (sameCatalog_sym Hcatalog)). }
  destruct (resourceSupportsList_lists resource
              (fst (Clientset.ServerPreferredResources clientset1)));
    destruct (resourceSupportsList_lists resource
                (fst (Clientset.ServerPreferredResources clientset2)));
    try reflexivity.
  - symmetry. apply H2, Hboth, H1. reflexivity.
  - apply H1, Hboth, H2. reflexivity.
Qed.

Lemma traversal_same (resources1 resources2 : list GroupVersionResource.t)
    (namespaces1 namespaces2 : list string) :
  Permutation resources1 resources2 ->
  Permutation namespaces1 namespaces2 ->
  Permutation (traversal clientset1 dynamicClient1 resources1 namespaces1)
    (traversal clientset2 dynamicClient2 resources2 namespaces2).
Proof.
  intros Hres Hns. unfold traversal.
  apply Permutation_flat_map_both; [exact Hns|]. intros ns.
  apply Permutation_flat_map_both.
  - rewrite (filter_ext _ (fun resource =>
                             value (resourceSupportsList clientset2 resource)))
      by apply resourceSupportsList_same.
    now apply Permutation_filter_same.
  - intros resource. apply Permutation_flat_map_both; [apply fetched_same|].
    intros obj. rewrite findings_same. apply Permutation_refl.
Qed.

(** The catalog steps of the two passes fail together or return the same
    types. *)
Lemma GetNamespaceScopedResources_same :
  match value (GetNamespaceScopedResources clientset1),
        value (GetNamespaceScopedResources clientset2) with
  | inl resources1, inl resources2 => Permutation resources1 resources2
  | inr _, inr _ => True
  | _, _ => False
  end.
Proof.
  destruct unchanged as (Hcatalog & Herr & _).
  rewrite !GetNamespaceScopedResources_value, <- Herr.
  assert (Hloops :
    match GetNamespaceScopedResources_loop
            (fst (Clientset.ServerPreferredNamespacedResources clientset1)) [],
          GetNamespaceScopedResources_loop
            (fst (Clientset.ServerPreferredNamespacedResources clientset2)) [] with
    | inl resources1, inl resources2 => Permutation resources1 resources2
    | inr _, inr _ => True
    | _, _ => False
    end).
  { destruct (GetNamespaceScopedResources_loop
                (fst (Clientset.ServerPreferredNamespacedResources clientset1)) [])
      as [resources1|err1] eqn:H1.
    - pose proof (GetNamespaceScopedResources_loop_inl _ _ H1) as Hwf1.
      pose proof (sameCatalog_wellFormed Hcatalog Hwf1) as Hwf2.
      rewrite GetNamespaceScopedResources_loop_wellFormed in H1 by exact Hwf1.
      rewrite GetNamespaceScopedResources_loop_wellFormed by exact Hwf2.
      injection H1 as <-. cbn [app]. now apply sameCatalog_namespacedTypes.
    - destruct (GetNamespaceScopedResources_loop
                  (fst (Clientset.ServerPreferredNamespacedResources clientset2)) [])
        as [resources2|err2] eqn:H2; [|exact I].
      pose proof (GetNamespaceScopedResources_loop_inl _ _ H2) as Hwf2.
      pose proof (sameCatalog_wellFormed (sameCatalog_sym Hcatalog) Hwf2) as Hwf1.
      rewrite GetNamespaceScopedResources_loop_wellFormed in H1 by exact Hwf1.
      discriminate H1. }
  destruct (snd (Clientset.ServerPreferredNamespacedResources clientset1)) as [err|];
    [|exact Hloops].
  destruct (error.IsGroupDiscoveryFailedError err); [exact Hloops | exact I].
Qed.

End Unchanged.
End Order.

(** C9. Two passes over a cluster in the same state, whose answers may come
    in another order in the second pass, return the same findings up to
    their order, that is the same multiset, field for field.  The discovery
    catalog is taken not to describe one resource type twice with different
    verbs. *)
Theorem C9_unchanged_cluster_same_multiset {schema : Schema}
    (clientset1 clientset2 : Clientset.t)
    (dynamicClient1 dynamicClient2 : dynamic.Interface) :
  unchangedCluster clientset1 dynamicClient1 clientset2 dynamicClient2 ->
  consistent (fst (Clientset.ServerPreferredResources clientset1)) ->
  Permutation
    (fst (value (ScanNamespaceResources clientset1 dynamicClient1)))
    (fst (value (ScanNamespaceResources clientset2 dynamicClient2))).
Proof.
  intros Hunchanged Hconsistent.
  pose proof (GetNamespaceScopedResources_same Hunchanged) as Htypes.
  rewrite !ScanNamespaceResources_value.
  destruct (value (GetNamespaceScopedResources clientset1)) as [resources1|err1],
           (value (GetNamespaceScopedResources clientset2)) as [resources2|err2];
    try contradiction; [|constructor].
  rewrite !GetNamespaces_value.
  pose proof Hunchanged as (_ & _ & _ & _ & Hns & _). unfold sameAnswer in Hns.
  destruct (Clientset.NamespacesList clientset1) as [items1|nsErr1],
           (Clientset.NamespacesList clientset2) as [items2|nsErr2];
    try contradiction; [|constructor].
  cbn [fst]. apply traversal_same; try assumption.
  now apply Permutation_map.
Qed.

Lemma sample_unchanged :
  unchangedCluster sample_clientset sample_dynamic reordered_clientset reordered_dynamic.
Proof.
  assert (Hcatalog : sameCatalog [core_v1; apps_v1] [apps_v1; core_v1_reordered]).
  { apply sameCatalog_trans with [apps_v1; core_v1]; [apply sameCatalog_swap|].
    apply sameCatalog_skip; [apply sameList_refl|].
    apply sameCatalog_skip; [|apply sameCatalog_nil].
    split; [reflexivity | apply perm_swap]. }
  unfold unchangedCluster. repeat split; try exact Hcatalog.
  - apply perm_swap.
  - intros resource ns. unfold reordered_dynamic, sample_dynamic, sameAnswer.
    cbn [dynamic.List].
    destruct ((GroupVersionResource.Resource resource =? "pods")
              && (ns =? "app"))%string; [apply perm_swap|].
    destruct ((GroupVersionResource.Resource resource =? "replicasets")
              && (ns =? "app"))%string; apply Permutation_refl.
Defined.

Lemma sample_consistent : consistent [core_v1; apps_v1].
Proof.
  intros groupVersion a a' (l & Hl & Hg & Ha) (l' & Hl' & Hg' & Ha') Hname.
  cbn in Hl, Hl'.
  destruct Hl as [<- | [<- | []]]; destruct Hl' as [<- | [<- | []]];
    cbn in Hg, Hg', Ha, Ha'; subst groupVersion; try discriminate Hg';
    repeat match goal with
           | H : _ \/ _ |- _ => destruct H as [H | H]
           | H : False |- _ => destruct H
           end;
    subst; try reflexivity; discriminate Hname.
Defined.

Lemma C9_witness :
  Permutation
    (fst (value (ScanNamespaceResources (schema := apimachinery) sample_clientset
                   sample_dynamic)))
    (fst (value (ScanNamespaceResources (schema := apimachinery) reordered_clientset
                   reordered_dynamic))).
Proof.
  apply (@C9_unchanged_cluster_same_multiset apimachinery
           sample_clientset reordered_clientset sample_dynamic reordered_dynamic
           sample_unchanged sample_consistent).
Defined.

(** In the second pass the findings come in the other order. *)
Example reordered_pass :
  fst (value (ScanNamespaceResources (schema := apimachinery) reordered_clientset
                reordered_dynamic))
  = rev (fst (value (ScanNamespaceResources (schema := apimachinery) sample_clientset
                       sample_dynamic))).
Proof. reflexivity. Qed.

(** A catalog that describes one type twice with different verbs is read by
    the order of its lists. *)
Example gate_follows_the_first_description :
  resourceSupportsList_lists (schema := apimachinery) pods [core_v1; pods_get_only]
  = true
  /\ resourceSupportsList_lists (schema := apimachinery) pods [pods_get_only; core_v1]
     = false.
Proof. split; reflexivity. Qed.

(** ** The fields of a finding *)

Section Fields.
Context {schema : Schema}.
Variable dynamicClient : dynamic.Interface.

Lemma CheckStuckFinalizers_describes (obj : Unstructured.t) (r : ResourceCheckResult) :
  In r (CheckStuckFinalizers obj) ->
  describes obj r /\ Issue r = "Stuck finalizer"%string.
Proof.
  rewrite CheckStuckFinalizers_cases.
  destruct (Unstructured.GetFinalizers obj) as [|f fs];
    destruct (Unstructured.GetDeletionTimestamp obj) as [t|]; cbn;
    try contradiction.
  intros [<- | []]. unfold describes. cbn. auto 6.
Qed.

Lemma CheckInvalidOwnerReferences_describes (obj : Unstructured.t) (ns : string)
    (r : ResourceCheckResult) :
  In r (value (CheckInvalidOwnerReferences dynamicClient obj ns)) ->
  describes obj r /\ Issue r = "Invalid ownerReference"%string.
Proof.
  rewrite CheckInvalidOwnerReferences_value, in_map_iff.
  intros (owner & <- & _). unfold describes. cbn. auto 6.
Qed.

(** C10. A finding of either check carries the namespace, the name and the
    kind of the object it was computed from, and its issue is
    "Stuck finalizer" for the first check and "Invalid ownerReference" for
    the second.  Every finding of a pass is such a finding about an object
    fetched during the pass, whatever the resource name it was listed
    under. *)
Theorem C10_finding_fields (clientset : Clientset.t) :
  (forall obj r,
      In r (CheckStuckFinalizers obj) ->
      Namespace r = Unstructured.GetNamespace obj
      /\ Name r = Unstructured.GetName obj
      /\ Resource r = Unstructured.GetKind obj
      /\ Issue r = "Stuck finalizer"%string)
  /\ (forall obj ns r,
        In r (value (CheckInvalidOwnerReferences dynamicClient obj ns)) ->
        Namespace r = Unstructured.GetNamespace obj
        /\ Name r = Unstructured.GetName obj
        /\ Resource r = Unstructured.GetKind obj
        /\ Issue r = "Invalid ownerReference"%string)
  /\ (forall r,
        In r (fst (value (ScanNamespaceResources clientset dynamicClient))) ->
        (Issue r = "Stuck finalizer"%string \/ Issue r = "Invalid ownerReference"%string)
        /\ exists ns resource obj,
            In obj (fetched dynamicClient ns resource)
            /\ Namespace r = Unstructured.GetNamespace obj
            /\ Name r = Unstructured.GetName obj
            /\ Resource r = Unstructured.GetKind obj).
Proof.
  split; [|split].
  - intros obj r Hin.
    destruct (CheckStuckFinalizers_describes _ _ Hin) as [(Hns & Hname & Hkind & _) Hissue].
    auto.
  - intros obj ns r Hin.
    destruct (CheckInvalidOwnerReferences_describes _ _ _ Hin)
      as [(Hns & Hname & Hkind & _) Hissue].
    auto.
  - intros r. rewrite ScanNamespaceResources_value.
    destruct (value (GetNamespaceScopedResources clientset)) as [resources|err];
      [|contradiction].
    destruct (value (GetNamespaces clientset)) as [namespaces|err]; [|contradiction].
    cbn [fst]. unfold traversal. rewrite in_flat_map.
    intros (ns & _ & Hin). rewrite in_flat_map in Hin.
    destruct Hin as (resource & _ & Hin). rewrite in_flat_map in Hin.
    destruct Hin as (obj & Hobj & Hin). unfold findings in Hin.
    assert (Hd : describes obj r).
    { apply in_app_or in Hin. destruct Hin as [Hin | Hin].
      - now apply CheckStuckFinalizers_describes.
      - now apply CheckInvalidOwnerReferences_describes in Hin. }
    destruct Hd as (Hns & Hname & Hkind & Hissue).
    split; [exact Hissue|]. exists ns, resource, obj. auto.
Qed.

End Fields.

Lemma C10_witness :
  Resource (mkResult "app" "ReplicaSet" "rs1" "Invalid ownerReference"
              "OwnerReference: APIVersion=apps/v1, Kind=Deployment, Name=d1, UID=X")
  = Unstructured.GetKind rs1
  /\ Issue (mkResult "app" "Pod" "p1" "Stuck finalizer"
              "Finalizers: [a.io/cleanup], DeletionTimestamp: 2024-05-01 10:00:00 +0000 UTC")
     = "Stuck finalizer"%string.
Proof.
  destruct (C10_finding_fields (schema := apimachinery) sample_dynamic sample_clientset)
    as [Hfin [Hown _]].
  split.
  - apply (Hown rs1 "app"%string). cbn. left. reflexivity.
  - apply (Hfin p1). cbn. left. reflexivity.
Defined.

(** * The remaining code *)

(** ** The other catalog functions *)

Lemma partition_map_filter {A B : Type} (f : A -> B) (p : A -> bool) (l : list A) :
  Permutation (map f (filter p l) ++ map f (filter (fun a => negb (p a)) l))
    (map f l).
Proof.
  induction l as [|a l IH]; cbn; [constructor|].
  destruct (p a); cbn.
  - now constructor.
  - apply Permutation_sym, Permutation_cons_app, Permutation_sym, IH.
Qed.

Lemma partition_flat_map {A B : Type} (f g h : A -> list B) (l : list A) :
  (forall a, Permutation (f a ++ g a) (h a)) ->
  Permutation (flat_map f l ++ flat_map g l) (flat_map h l).
Proof.
  intros H. induction l as [|a l IH]; cbn; [constructor|].
  rewrite <- app_assoc.
  rewrite (Permutation_app_swap_app (flat_map f l) (g a) (flat_map g l)).
  rewrite app_assoc. apply Permutation_app; [apply H | exact IH].
Qed.

Section Catalogs.
Context {schema : Schema}.

Lemma GetClusterScopedResources_inner_filter (gv : GroupVersion.t)
    (apiResources : list APIResource.t) :
  forall resources,
    GetClusterScopedResources_inner gv apiResources resources
    = resources ++ map (fun a => WithResource gv (APIResource.Name a))
                     (filter (fun a => negb (APIResource.Namespaced a)) apiResources).
Proof.
  induction apiResources as [|a rest IH]; intros resources;
    cbn [GetClusterScopedResources_inner filter].
  - cbn. now rewrite app_nil_r.
  - destruct (APIResource.Namespaced a); cbn [negb].
    + apply IH.
    + rewrite IH, <- app_assoc. reflexivity.
Qed.

Lemma GetClusterScopedResources_loop_wellFormed (catalog : list APIResourceList.t) :
  wellFormed catalog ->
  forall resources,
    GetClusterScopedResources_loop catalog resources
    = inl (resources ++ clusterTypes catalog).
Proof.
  unfold wellFormed, clusterTypes.
  induction 1 as [|l rest [gv Hgv] _ IH]; intros resources;
    cbn [GetClusterScopedResources_loop flat_map].
  - now rewrite app_nil_r.
  - rewrite Hgv, IH, GetClusterScopedResources_inner_filter, <- app_assoc.
    reflexivity.
Qed.

Lemma GetClusterScopedResources_value (clientset : Clientset.t) :
  value (GetClusterScopedResources clientset)
  = match snd (Clientset.ServerPreferredResources clientset) with
    | Some err =>
        if error.IsGroupDiscoveryFailedError err
        then GetClusterScopedResources_loop
               (fst (Clientset.ServerPreferredResources clientset)) []
        else inr (Errorf "error fetching cluster-scoped resources: " err)
    | None =>
        GetClusterScopedResources_loop
          (fst (Clientset.ServerPreferredResources clientset)) []
    end.
Proof.
  unfold GetClusterScopedResources, call_ServerPreferredResources. run.
  destruct (Clientset.ServerPreferredResources clientset) as [lists [err|]];
    cbn [fst snd]; [|reflexivity].
  destruct (error.IsGroupDiscoveryFailedError err); run; reflexivity.
Qed.

(** X1. [GetClusterScopedResources] returns, in catalog order, the types that
    discovery does not mark as namespaced; it does so also when discovery
    reports a failure of some groups only, and fails on any other discovery
    error. *)
Theorem X1_cluster_scoped_resources (clientset : Clientset.t)
    (catalog : list APIResourceList.t) (err : option error.t) :
  Clientset.ServerPreferredResources clientset = (catalog, err) ->
  wellFormed catalog ->
  value (GetClusterScopedResources clientset)
  = match err with
    | None => inl (clusterTypes catalog)
    | Some e =>
        if error.IsGroupDiscoveryFailedError e
        then inl (clusterTypes catalog)
        else inr (Errorf "error fetching cluster-scoped resources: " e)
    end.
Proof.
  intros Hdisc Hwf. rewrite GetClusterScopedResources_value, Hdisc. cbn [fst snd].
  rewrite GetClusterScopedResources_loop_wellFormed by exact Hwf.
  destruct err as [e|]; reflexivity.
Qed.

Lemma filter_filter_same {A : Type} (f : A -> bool) (l : list A) :
  filter f (filter f l) = filter f l.
Proof.
  induction l as [|x l IH]; cbn; [reflexivity|].
  destruct (f x) eqn:Hx; cbn; [now rewrite Hx, IH | exact IH].
Qed.

Lemma wellFormed_FilteredByNamespaced (catalog : list APIResourceList.t) :
  wellFormed catalog -> wellFormed (FilteredByNamespaced catalog).
Proof.
  unfold wellFormed, FilteredByNamespaced.
  induction 1 as [|l rest Hl _ IH]; cbn [flat_map]; [constructor|].
  destruct (filter APIResource.Namespaced (APIResourceList.APIResources l));
    cbn [app]; [exact IH | now constructor].
Qed.

Lemma namespacedTypes_FilteredByNamespaced (catalog : list APIResourceList.t) :
  namespacedTypes (FilteredByNamespaced catalog) = namespacedTypes catalog.
Proof.
  unfold namespacedTypes, FilteredByNamespaced.
  induction catalog as [|l rest IH]; cbn [flat_map]; [reflexivity|].
  rewrite flat_map_app, IH. f_equal.
  destruct (filter APIResource.Namespaced (APIResourceList.APIResources l))
    as [|a namespaced] eqn:Hfilter; cbn [flat_map APIResourceList.GroupVersion
                                         APIResourceList.APIResources].
  - now destruct (ParseGroupVersion (APIResourceList.GroupVersion l)).
  - rewrite app_nil_r, <- Hfilter, filter_filter_same. reflexivity.
Qed.

(** The catalog step on the answer that client-go gives to the namespaced
    discovery call, in whatever order its groups come. *)
Lemma GetNamespaceScopedResources_filtered (clientset : Clientset.t)
    (catalog : list APIResourceList.t) :
  snd (Clientset.ServerPreferredNamespacedResources clientset) = None ->
  sameCatalog (fst (Clientset.ServerPreferredNamespacedResources clientset))
    (FilteredByNamespaced catalog) ->
  wellFormed catalog ->
  exists namespaced,
    value (GetNamespaceScopedResources clientset) = inl namespaced
    /\ Permutation namespaced (namespacedTypes catalog)
    /\ (fst (Clientset.ServerPreferredNamespacedResources clientset)
        = FilteredByNamespaced catalog -> namespaced = namespacedTypes catalog).
Proof.
  intros Herr Hsame Hwf.
  assert (Hwf' : wellFormed (fst (Clientset.ServerPreferredNamespacedResources
                                    clientset))).
  { apply (sameCatalog_wellFormed (sameCatalog_sym Hsame)).
    now apply wellFormed_FilteredByNamespaced. }
  exists (namespacedTypes (fst (Clientset.ServerPreferredNamespacedResources clientset))).
  repeat split.
  - rewrite GetNamespaceScopedResources_value, Herr.
    now rewrite GetNamespaceScopedResources_loop_wellFormed.
  - rewrite <- (namespacedTypes_FilteredByNamespaced catalog).
    now apply sameCatalog_namespacedTypes.
  - intros ->. apply namespacedTypes_FilteredByNamespaced.
Qed.

(** X2. Let the typed client answer the two discovery calls as client-go
    does: the namespaced call with the answer to the other call cut down to
    its namespaced resources, in whatever order.  Then the namespaced types
    and the cluster-scoped types that the two catalog functions return are,
    together, all the types of the catalog: no type is lost and none is
    returned twice. *)
Theorem X2_scopes_partition_the_catalog (clientset : Clientset.t)
    (catalog : list APIResourceList.t) :
  Clientset.ServerPreferredResources clientset = (catalog, None) ->
  snd (Clientset.ServerPreferredNamespacedResources clientset) = None ->
  sameCatalog (fst (Clientset.ServerPreferredNamespacedResources clientset))
    (FilteredByNamespaced catalog) ->
  wellFormed catalog ->
  exists namespaced clusterScoped,
    value (GetNamespaceScopedResources clientset) = inl namespaced
    /\ value (GetClusterScopedResources clientset) = inl clusterScoped
    /\ Permutation (namespaced ++ clusterScoped) (allTypes catalog).
Proof.
  intros Hall Herr Hsame Hwf.
  destruct (GetNamespaceScopedResources_filtered clientset Herr Hsame Hwf)
    as (namespaced & Hvalue & Hperm & _).
  exists namespaced, (clusterTypes catalog). repeat split; [exact Hvalue | |].
  - rewrite GetClusterScopedResources_value, Hall. cbn [fst snd].
    now rewrite GetClusterScopedResources_loop_wellFormed.
  - transitivity (namespacedTypes catalog ++ clusterTypes catalog);
      [now apply Permutation_app_tail|].
    unfold namespacedTypes, clusterTypes, allTypes.
    apply partition_flat_map. intros l.
    destruct (ParseGroupVersion (APIResourceList.GroupVersion l)); [|constructor].
    apply partition_map_filter.
Qed.

Lemma GetNamespaceScopedResources_loop_unparseable
    (good : list APIResourceList.t) (bad : APIResourceList.t)
    (rest : list APIResourceList.t) (perr : error.t) :
  wellFormed good ->
  ParseGroupVersion (APIResourceList.GroupVersion bad) = inr perr ->
  forall resources,
    GetNamespaceScopedResources_loop (good ++ bad :: rest) resources
    = inr (Errorf ("error parsing GroupVersion "
                   ++ APIResourceList.GroupVersion bad ++ ": ")%string perr).
Proof.
  intros Hwf Hbad. unfold wellFormed in Hwf.
  induction Hwf as [|l good' [gv Hgv] _ IH]; intros resources;
    cbn [app GetNamespaceScopedResources_loop].
  - now rewrite Hbad.
  - rewrite Hgv. apply IH.
Qed.

(** X3. A group/version string of the discovery answer that does not parse
    ends the pass, whether discovery reported no error or a failure of some
    groups only: the catalog step fails with an error that names the first
    such string, and the scan
    returns that error with no finding and without any request through the
    dynamic client. *)
Theorem X3_unparseable_groupVersion_aborts (clientset : Clientset.t)
    (dynamicClient : dynamic.Interface)
    (good : list APIResourceList.t) (bad : APIResourceList.t)
    (rest : list APIResourceList.t) (discoveryErr : option error.t)
    (perr : error.t) :
  Clientset.ServerPreferredNamespacedResources clientset
  = (good ++ bad :: rest, discoveryErr) ->
  (forall e, discoveryErr = Some e -> error.IsGroupDiscoveryFailedError e = true) ->
  wellFormed good ->
  ParseGroupVersion (APIResourceList.GroupVersion bad) = inr perr ->
  let err := Errorf ("error parsing GroupVersion "
                     ++ APIResourceList.GroupVersion bad ++ ": ")%string perr in
  value (GetNamespaceScopedResources clientset) = inr err
  /\ value (ScanNamespaceResources clientset dynamicClient) = ([], Some err)
  /\ Forall (fun e => isDynamicRequest e = false)
       (trace (ScanNamespaceResources clientset dynamicClient)).
Proof.
  intros Hdisc Hpartial Hwf Hbad err.
  assert (Hcat : value (GetNamespaceScopedResources clientset) = inr err).
  { rewrite GetNamespaceScopedResources_value, Hdisc. cbn [fst snd].
    destruct discoveryErr as [e|]; [rewrite (Hpartial e eq_refl)|];
      now apply GetNamespaceScopedResources_loop_unparseable. }
  assert (Hscan : value (ScanNamespaceResources clientset dynamicClient)
                  = ([], Some err)).
  { now rewrite ScanNamespaceResources_value, Hcat. }
  repeat split; [exact Hcat | exact Hscan |].
  apply ScanNamespaceResources_abort_trace. rewrite Hscan. discriminate.
Qed.

Lemma GetNamespacedObjects_inner_filter (gv : GroupVersion.t)
    (apiResources : list APIResource.t) :
  forall objects,
    GetNamespacedObjects_inner gv apiResources objects
    = objects ++ map (fun a => WithResource gv (APIResource.Name a))
                   (filter APIResource.Namespaced apiResources).
Proof.
  induction apiResources as [|a rest IH]; intros objects;
    cbn [GetNamespacedObjects_inner filter].
  - cbn. now rewrite app_nil_r.
  - destruct (APIResource.Namespaced a).
    + cbv zeta. rewrite IH, <- app_assoc. reflexivity.
    + apply IH.
Qed.

Lemma GetNamespacedObjects_loop_lenient (catalog : list APIResourceList.t) :
  forall objects,
    GetNamespacedObjects_loop catalog objects
    = objects ++ namespacedTypesLenient catalog.
Proof.
  unfold namespacedTypesLenient.
  induction catalog as [|l rest IH]; intros objects;
    cbn [GetNamespacedObjects_loop flat_map].
  - now rewrite app_nil_r.
  - cbv zeta. rewrite IH, GetNamespacedObjects_inner_filter, <- app_assoc.
    reflexivity.
Qed.

Lemma namespacedTypesLenient_wellFormed (catalog : list APIResourceList.t) :
  wellFormed catalog -> namespacedTypesLenient catalog = namespacedTypes catalog.
Proof.
  unfold wellFormed, namespacedTypesLenient, namespacedTypes.
  induction 1 as [|l rest [gv Hgv] _ IH]; cbn [flat_map]; [reflexivity|].
  unfold parsedOrZero at 1. now rewrite Hgv, IH.
Qed.

(** X4. [GetNamespacedObjects] fails, with the error as it is, on every
    discovery error, also on a failure of some groups only, which the other
    catalog functions tolerate; it never fails on a group/version string that
    does not parse, and files the namespaced types of such a group under the
    empty group and version. *)
Theorem X4_namespaced_objects_failures (clientset : Clientset.t) :
  value (GetNamespacedObjects clientset)
  = match snd (Clientset.ServerPreferredResources clientset) with
    | Some err => inr err
    | None =>
        inl (namespacedTypesLenient
               (fst (Clientset.ServerPreferredResources clientset)))
    end.
Proof.
  unfold GetNamespacedObjects, call_ServerPreferredResources. run.
  destruct (Clientset.ServerPreferredResources clientset) as [lists [err|]];
    run; cbn [fst snd]; [reflexivity|].
  now rewrite GetNamespacedObjects_loop_lenient.
Qed.

(** X5. Let the typed client answer the two discovery calls as client-go
    does, without an error and with group/version strings that parse.  Then
    [GetNamespacedObjects], which filters the full catalog itself, and
    [GetNamespaceScopedResources], which reads the catalog that the client
    has filtered, return the same types: up to their order in general, and in
    the same order when the client keeps the order of the groups. *)
Theorem X5_catalog_functions_agree (clientset : Clientset.t)
    (catalog : list APIResourceList.t) :
  Clientset.ServerPreferredResources clientset = (catalog, None) ->
  snd (Clientset.ServerPreferredNamespacedResources clientset) = None ->
  sameCatalog (fst (Clientset.ServerPreferredNamespacedResources clientset))
    (FilteredByNamespaced catalog) ->
  wellFormed catalog ->
  exists objects resources,
    value (GetNamespacedObjects clientset) = inl objects
    /\ value (GetNamespaceScopedResources clientset) = inl resources
    /\ Permutation objects resources
    /\ (fst (Clientset.ServerPreferredNamespacedResources clientset)
        = FilteredByNamespaced catalog -> objects = resources).
Proof.
  intros Hall Herr Hsame Hwf.
  destruct (GetNamespaceScopedResources_filtered clientset Herr Hsame Hwf)
    as (resources & Hvalue & Hperm & Hexact).
  exists (namespacedTypes catalog), resources.
  repeat split; [| exact Hvalue | now apply Permutation_sym |].
  - unfold GetNamespacedObjects, call_ServerPreferredResources. run.
    rewrite Hall. run.
    now rewrite GetNamespacedObjects_loop_lenient, namespacedTypesLenient_wellFormed.
  - intros Hsame'. symmetry. now apply Hexact.
Qed.

(** X6. [GetAPIVersionForResource] panics exactly when discovery returns,
    without an error, an empty list of resources for the group/version; when
    it returns, the answer is the same for all resource types of one group
    and version, whatever the resource name. *)
Theorem X6_api_version_of_first_resource (discovery : Discovery.t)
    (resource : GroupVersionResource.t) :
  ((exists message, GetAPIVersionForResource discovery resource = Panicked message)
   <-> Discovery.ServerResourcesForGroupVersion discovery
         (GroupVersion_String (GroupVersionResource.GroupVersion resource))
       = inl [])
  /\ (forall other,
        GroupVersionResource.Group other = GroupVersionResource.Group resource ->
        GroupVersionResource.Version other = GroupVersionResource.Version resource ->
        GetAPIVersionForResource discovery other
        = GetAPIVersionForResource discovery resource).
Proof.
  split.
  - unfold GetAPIVersionForResource.
    destruct (Discovery.ServerResourcesForGroupVersion discovery _)
      as [[|first rest]|err].
    + split; eauto.
    + split; [intros [m H]; discriminate H | discriminate].
    + split; [intros [m H]; discriminate H | discriminate].
  - intros other Hg Hv. unfold GetAPIVersionForResource,
      GroupVersionResource.GroupVersion. now rewrite Hg, Hv.
Qed.

End Catalogs.

(** ** The requests of a pass *)

Section Counting.
Context {schema : Schema}.
Variable clientset : Clientset.t.
Variable dynamicClient : dynamic.Interface.

(** A kind of request that is neither a get nor a log line. *)
Variable keep : Event -> bool.
Hypothesis keep_get : forall resource ns name, keep (ReqGet resource ns name) = false.
Hypothesis keep_error : forall line, keep (LogError line) = false.

Lemma OwnerExists_keep (owner : OwnerReference.t) (namespace : string) :
  filter keep (trace (OwnerExists dynamicClient owner namespace)) = [].
Proof.
  unfold OwnerExists, call_Get.
  destruct (ParseGroupVersion (OwnerReference.APIVersion owner)); run;
    cbn [app filter].
  - now rewrite keep_get.
  - now rewrite keep_error.
Qed.

Lemma CheckInvalidOwnerReferences_loop_keep (obj : Unstructured.t)
    (namespace : string) (owners : list OwnerReference.t) :
  forall results,
    filter keep
      (trace (CheckInvalidOwnerReferences_loop dynamicClient obj namespace owners results))
    = [].
Proof.
  induction owners as [|owner rest IH]; intros results;
    cbn [CheckInvalidOwnerReferences_loop]; [reflexivity|].
  run. rewrite filter_app, OwnerExists_keep. cbn [app].
  destruct (negb _); apply IH.
Qed.

Lemma ScanNamespaceResources_objects_keep (ns : string)
    (resource : GroupVersionResource.t) (objects : list string) :
  forall results,
    filter keep
      (trace (ScanNamespaceResources_objects dynamicClient ns resource objects results))
    = [].
Proof.
  induction objects as [|objectName rest IH]; intros results;
    cbn [ScanNamespaceResources_objects]; [reflexivity|].
  unfold call_Get. run. cbn [app filter]. rewrite keep_get.
  destruct (dynamic.Get dynamicClient resource ns objectName) as [obj|err]; run.
  - rewrite !filter_app. unfold CheckInvalidOwnerReferences.
    rewrite CheckInvalidOwnerReferences_loop_keep, IH.
    do 2 (destruct (Nat.ltb 0 _); run; cbn [app filter]; rewrite ?keep_error);
      reflexivity.
  - cbn [app filter]. rewrite keep_error. apply IH.
Qed.

Lemma resourceSupportsList_keep (resource : GroupVersionResource.t) :
  filter keep (trace (resourceSupportsList clientset resource))
  = filter keep [ReqServerPreferredResources].
Proof.
  unfold resourceSupportsList, call_ServerPreferredResources. run.
  destruct (Clientset.ServerPreferredResources clientset) as [lists [err|]];
    run; cbn [app filter]; rewrite ?keep_error; reflexivity.
Qed.

Lemma ScanNamespaceResources_resources_keep (ns : string)
    (resources : list GroupVersionResource.t) :
  forall results,
    filter keep
      (trace (ScanNamespaceResources_resources clientset dynamicClient ns
                resources results))
    = flat_map (fun resource =>
        filter keep
          (ReqServerPreferredResources
           :: if value (resourceSupportsList clientset resource)
              then [ReqList resource ns] else []))
        resources.
Proof.
  induction resources as [|resource rest IH]; intros results;
    cbn [ScanNamespaceResources_resources flat_map]; [reflexivity|].
  run. rewrite filter_app, resourceSupportsList_keep.
  destruct (value (resourceSupportsList clientset resource)); cbn [negb].
  - unfold GetNamespaceObjects, call_List. run.
    destruct (dynamic.List dynamicClient resource ns) as [items|err]; run.
    + rewrite !filter_app, ScanNamespaceResources_objects_keep, IH.
      cbn [app filter]. destruct (keep ReqServerPreferredResources);
        destruct (keep (ReqList resource ns)); reflexivity.
    + rewrite !filter_app, IH. cbn [app filter]. rewrite keep_error.
      destruct (keep ReqServerPreferredResources);
        destruct (keep (ReqList resource ns)); reflexivity.
  - rewrite IH. cbn [filter].
    destruct (keep ReqServerPreferredResources); reflexivity.
Qed.

Lemma ScanNamespaceResources_namespaces_keep
    (resources : list GroupVersionResource.t) (namespaces : list string) :
  forall results,
    filter keep
      (trace (ScanNamespaceResources_namespaces clientset dynamicClient resources
                namespaces results))
    = flat_map (fun ns =>
        flat_map (fun resource =>
          filter keep
            (ReqServerPreferredResources
             :: if value (resourceSupportsList clientset resource)
                then [ReqList resource ns] else []))
          resources)
        namespaces.
Proof.
  induction namespaces as [|ns rest IH]; intros results;
    cbn [ScanNamespaceResources_namespaces flat_map]; [reflexivity|].
  run. now rewrite filter_app, ScanNamespaceResources_resources_keep, IH.
Qed.

Hypothesis keep_catalog : keep ReqServerPreferredNamespacedResources = false.
Hypothesis keep_namespaces : keep ReqNamespacesList = false.
Hypothesis keep_printf : forall line, keep (Printf line) = false.
Hypothesis keep_info : forall line, keep (LogInfo line) = false.

Lemma ScanNamespaceResources_keep
    (resources : list GroupVersionResource.t) (namespaces : list string) :
  value (GetNamespaceScopedResources clientset) = inl resources ->
  value (GetNamespaces clientset) = inl namespaces ->
  filter keep (trace (ScanNamespaceResources clientset dynamicClient))
  = flat_map (fun ns =>
      flat_map (fun resource =>
        filter keep
          (ReqServerPreferredResources
           :: if value (resourceSupportsList clientset resource)
              then [ReqList resource ns] else []))
        resources)
      namespaces.
Proof.
  intros Hres Hns. unfold ScanNamespaceResources. run.
  rewrite Hres. run. rewrite Hns, GetNamespaces_trace. run.
  rewrite !filter_app, ScanNamespaceResources_namespaces_keep.
  cbn [filter]. rewrite keep_namespaces, keep_info, app_nil_r. cbn [app].
  replace (filter keep (trace (GetNamespaceScopedResources clientset))) with (@nil Event);
    [reflexivity|].
  unfold GetNamespaceScopedResources, call_ServerPreferredNamespacedResources. run.
  destruct (Clientset.ServerPreferredNamespacedResources clientset) as [lists [err|]];
    [destruct (error.IsGroupDiscoveryFailedError err)|]; run; cbn [app filter];
    rewrite ?keep_catalog, ?keep_printf; reflexivity.
Qed.

End Counting.

Lemma flat_map_singleton_length {A B C : Type} (x : C) (l1 : list A) (l2 : list B) :
  List.length (flat_map (fun _ : A => flat_map (fun _ : B => [x]) l2) l1)
  = List.length l1 * List.length l2.
Proof.
  assert (Hinner : List.length (flat_map (fun _ : B => [x]) l2) = List.length l2).
  { induction l2 as [|b l2 IH]; cbn; [reflexivity | now rewrite IH]. }
  induction l1 as [|a l1 IH]; cbn [flat_map List.length]; [reflexivity|].
  rewrite length_app, IH, Hinner. reflexivity.
Qed.

Lemma flat_map_if_filter {A B : Type} (p : A -> bool) (f : A -> B) (l : list A) :
  flat_map (fun a => if p a then [f a] else []) l = map f (filter p l).
Proof.
  induction l as [|a l IH]; cbn; [reflexivity|].
  destruct (p a); cbn; now rewrite IH.
Qed.

(** X7. A pass whose discovery steps succeed re-queries the discovery catalog
    once for every pair of a namespace and a resource type: the number of
    re-queries is the product of the two numbers, whatever the cluster
    holds. *)
Theorem X7_one_requery_per_namespace_and_type {schema : Schema}
    (clientset : Clientset.t) (dynamicClient : dynamic.Interface)
    (resources : list GroupVersionResource.t) (namespaces : list string) :
  value (GetNamespaceScopedResources clientset) = inl resources ->
  value (GetNamespaces clientset) = inl namespaces ->
  List.length (filter isRequery (trace (ScanNamespaceResources clientset dynamicClient)))
  = List.length namespaces * List.length resources.
Proof.
  intros Hres Hns.
  rewrite (ScanNamespaceResources_keep clientset dynamicClient isRequery)
    with (resources := resources) (namespaces := namespaces);
    try reflexivity; try assumption.
  rewrite <- (flat_map_singleton_length ReqServerPreferredResources namespaces resources).
  f_equal. apply flat_map_ext. intros ns. apply flat_map_ext. intros resource.
  cbn [filter isRequery].
  now destruct (value (resourceSupportsList clientset resource)).
Qed.

(** X8. The list requests of a pass whose discovery steps succeed are, in
    order, one for every namespace and every resource type for which the
    capability gate answers true, and no other. *)
Theorem X8_list_requests_of_a_pass {schema : Schema}
    (clientset : Clientset.t) (dynamicClient : dynamic.Interface)
    (resources : list GroupVersionResource.t) (namespaces : list string) :
  value (GetNamespaceScopedResources clientset) = inl resources ->
  value (GetNamespaces clientset) = inl namespaces ->
  filter isListRequest (trace (ScanNamespaceResources clientset dynamicClient))
  = flat_map (fun ns =>
      map (fun resource => ReqList resource ns)
        (filter (fun resource => value (resourceSupportsList clientset resource))
           resources))
      namespaces.
Proof.
  intros Hres Hns.
  rewrite (ScanNamespaceResources_keep clientset dynamicClient isListRequest)
    with (resources := resources) (namespaces := namespaces);
    try reflexivity; try assumption.
  apply flat_map_ext. intros ns.
  rewrite <- flat_map_if_filter. apply flat_map_ext. intros resource.
  cbn [filter isListRequest].
  now destruct (value (resourceSupportsList clientset resource)).
Qed.

(** ** The connection to the cluster *)

Lemma append_not_empty (s : string) : (s ++ "/.kube/config" =? "")%string = false.
Proof. destruct s; reflexivity. Qed.

Lemma eqb_empty_false (s : string) : s <> ""%string -> (s =? "")%string = false.
Proof. intros H. now apply String.eqb_neq. Qed.

Section Connection.
Variable Config : Type.

(** X9. In a pod, where both service variables are set and not empty,
    [ConnectToCluster] uses the in-cluster configuration alone: the
    kubeconfig argument, the variables KUBECONFIG and HOME and the kubeconfig
    files have no influence on its result. *)
Theorem X9_in_cluster_configuration_wins (platform1 platform2 : Platform.t Config)
    (kubeconfig1 kubeconfig2 : string) :
  inCluster (Platform.Environ platform1) = true ->
  inCluster (Platform.Environ platform2) = true ->
  Platform.InClusterConfig platform1 = Platform.InClusterConfig platform2 ->
  (forall config, Platform.kubernetes_NewForConfig platform1 config
                  = Platform.kubernetes_NewForConfig platform2 config) ->
  (forall config, Platform.dynamic_NewForConfig platform1 config
                  = Platform.dynamic_NewForConfig platform2 config) ->
  ConnectToCluster platform1 kubeconfig1 = ConnectToCluster platform2 kubeconfig2.
Proof.
  unfold inCluster, ConnectToCluster. intros -> -> -> Htyped Hdynamic.
  destruct (Platform.InClusterConfig platform2) as [config|err]; [|reflexivity].
  now rewrite Htyped, Hdynamic.
Qed.

(** X10. Outside a pod, [ConnectToCluster] with an empty kubeconfig argument
    behaves as with the path of the variable KUBECONFIG or, when that is
    empty, the path [.kube/config] under HOME; with a path that is not empty
    it consults neither variable. *)
Theorem X10_kubeconfig_resolution (platform : Platform.t Config) :
  inCluster (Platform.Environ platform) = false ->
  ConnectToCluster platform ""
  = ConnectToCluster platform
      (if (Getenv (Platform.Environ platform) "KUBECONFIG" =? "")%string
       then (Getenv (Platform.Environ platform) "HOME" ++ "/.kube/config")%string
       else Getenv (Platform.Environ platform) "KUBECONFIG")
  /\ (forall kubeconfig fromEnv home,
        kubeconfig <> ""%string ->
        ConnectToCluster (setenv (setenv platform "KUBECONFIG" fromEnv) "HOME" home)
          kubeconfig
        = ConnectToCluster platform kubeconfig).
Proof.
  intros Hout. split.
  - unfold ConnectToCluster. unfold inCluster in Hout. rewrite Hout.
    change ("" =? "")%string with true. cbv iota.
    destruct (Getenv (Platform.Environ platform) "KUBECONFIG" =? "")%string eqn:Hk.
    + now rewrite append_not_empty.
    + now rewrite Hk.
  - intros kubeconfig fromEnv home Hk.
    unfold ConnectToCluster, inCluster in *. cbn. unfold Getenv in *. cbn.
    rewrite Hout. now rewrite (eqb_empty_false Hk).
Qed.

End Connection.

(** ** The report *)

Lemma string_app_assoc (a b c : string) : ((a ++ b) ++ c = a ++ (b ++ c))%string.
Proof. induction a as [|x a IH]; cbn; [reflexivity | now rewrite IH]. Qed.

Lemma string_app_nil_r (a : string) : (a ++ "")%string = a.
Proof. induction a as [|x a IH]; cbn; [reflexivity | now rewrite IH]. Qed.

Lemma string_app_inv_head (a b c : string) : (a ++ b = a ++ c)%string -> b = c.
Proof.
  induction a as [|x a IH]; cbn; [auto|]. intros H. injection H as H. auto.
Qed.

Lemma generateReport_loop_body (results : list ResourceCheckResult) :
  forall buffer,
    generateReport_loop results buffer = (buffer ++ reportBody results)%string.
Proof.
  induction results as [|r rest IH]; intros buffer;
    cbn [generateReport_loop reportBody].
  - now rewrite string_app_nil_r.
  - cbv zeta. rewrite IH. unfold WriteString, reportBlock.
    now rewrite !string_app_assoc.
Qed.

Lemma generateReport_header_body (results : list ResourceCheckResult) :
  generateReport results = (reportHeader ++ reportBody results)%string.
Proof.
  unfold generateReport. cbv zeta. rewrite generateReport_loop_body.
  unfold WriteString, reportHeader. cbn [append]. now rewrite !string_app_assoc.
Qed.

Lemma reportBody_app (a b : list ResourceCheckResult) :
  reportBody (a ++ b) = (reportBody a ++ reportBody b)%string.
Proof.
  induction a as [|r a IH]; cbn [app reportBody]; [reflexivity|].
  now rewrite IH, string_app_assoc.
Qed.

(** X11. The report is the two header lines followed by six lines per
    finding, in the order of the findings: the report of a list that holds a
    finding is the report of the findings before it, then the lines of that
    finding, then the lines of the findings after it. *)
Theorem X11_report_holds_every_finding
    (before : list ResourceCheckResult) (r : ResourceCheckResult)
    (after : list ResourceCheckResult) :
  generateReport (before ++ r :: after)
  = (generateReport before ++ reportBlock r ++ reportBody after)%string
  /\ generateReport [] = reportHeader.
Proof.
  split.
  - rewrite !generateReport_header_body, reportBody_app. cbn [reportBody].
    now rewrite string_app_assoc.
  - reflexivity.
Qed.

Lemma line_split (s s' t t' : string) :
  oneLine s -> oneLine s' ->
  (s ++ newline ++ t = s' ++ newline ++ t')%string ->
  s = s' /\ t = t'.
Proof.
  revert s'. induction s as [|c s IH]; intros [|c' s'] Hs Hs' H; cbn in *.
  - injection H as H. auto.
  - injection H as Hc _. destruct Hs' as [Hc' _]. now symmetry in Hc.
  - injection H as Hc _. destruct Hs as [Hc' _]. contradiction.
  - injection H as Hc H. destruct Hs as [_ Hs], Hs' as [_ Hs'].
    destruct (IH s' Hs Hs' H) as [-> ->]. now subst.
Qed.

Lemma reportBlock_split (r r' : ResourceCheckResult) (t t' : string) :
  oneLineResult r -> oneLineResult r' ->
  (reportBlock r ++ t = reportBlock r' ++ t')%string ->
  r = r' /\ t = t'.
Proof.
  intros (H1 & H2 & H3 & H4 & H5) (H1' & H2' & H3' & H4' & H5').
  unfold reportBlock. rewrite !string_app_assoc. intros H.
  apply string_app_inv_head, line_split in H; [|assumption..].
  destruct H as [Hns H].
  apply string_app_inv_head, line_split in H; [|assumption..].
  destruct H as [Hres H].
  apply string_app_inv_head, line_split in H; [|assumption..].
  destruct H as [Hname H].
  apply string_app_inv_head, line_split in H; [|assumption..].
  destruct H as [Hissue H].
  apply string_app_inv_head, line_split in H; [|assumption..].
  destruct H as [Hinfo H].
  apply (string_app_inv_head newline) in H.
  destruct r, r'; cbn in *. now subst.
Qed.

Lemma reportBody_inj (a : list ResourceCheckResult) :
  forall b,
    Forall oneLineResult a -> Forall oneLineResult b ->
    reportBody a = reportBody b -> a = b.
Proof.
  induction a as [|r a IH]; intros [|r' b] Ha Hb H; cbn [reportBody] in H.
  - reflexivity.
  - discriminate H.
  - discriminate H.
  - inversion Ha as [|? ? Hr Ha']; inversion Hb as [|? ? Hr' Hb']; subst.
    destruct (reportBlock_split Hr Hr' H) as [-> Hrest].
    f_equal. now apply IH.
Qed.

(** X12. Two lists of findings whose fields hold no line break and whose
    reports are the same text are the same list: the report loses nothing of
    such findings, neither a field nor the order. *)
Theorem X12_report_determines_findings (a b : list ResourceCheckResult) :
  Forall oneLineResult a -> Forall oneLineResult b ->
  generateReport a = generateReport b -> a = b.
Proof.
  intros Ha Hb. rewrite !generateReport_header_body. intros H.
  apply string_app_inv_head in H. now apply reportBody_inj.
Qed.

(** ** The process *)

Lemma mails_app (a b : list ProcessEvent) : mails (a ++ b) = mails a ++ mails b.
Proof. apply flat_map_app. Qed.

Lemma fatals_app (a b : list ProcessEvent) : fatals (a ++ b) = fatals a ++ fatals b.
Proof. apply flat_map_app. Qed.

Lemma mails_StdLog (l : list string) : mails (map StdLog l) = [].
Proof. induction l; cbn; auto. Qed.

Lemma mails_Scanner (l : list Event) : mails (map Scanner l) = [].
Proof. induction l; cbn; auto. Qed.

Lemma fatals_StdLog (l : list string) : fatals (map StdLog l) = [].
Proof. induction l; cbn; auto. Qed.

Lemma fatals_Scanner (l : list Event) : fatals (map Scanner l) = [].
Proof. induction l; cbn; auto. Qed.

Lemma mails_sendEmailReport {Config : Type} (platform : Platform.t Config)
    (CFG : config.AppConfig) (report : string) :
  mails (sendEmailReport platform CFG report)
  = [ ( Dialer.mk (config.SmtpHost CFG) (config.SmtpPort CFG)
          (config.SmtpUser CFG) (config.SmtpPassword CFG),
        Message.mk (config.SmtpFrom CFG) (config.SmtpTo CFG)
          "Daily Kubernetes Resource Report" "text/plain" report ) ].
Proof.
  unfold sendEmailReport. now destruct (Platform.DialAndSend platform _ _).
Qed.

Lemma fatals_sendEmailReport {Config : Type} (platform : Platform.t Config)
    (CFG : config.AppConfig) (report : string) :
  fatals (sendEmailReport platform CFG report) = [].
Proof.
  unfold sendEmailReport. now destruct (Platform.DialAndSend platform _ _).
Qed.

Create Rewrite HintDb process.
#[local] Hint Rewrite mails_app fatals_app mails_StdLog mails_Scanner fatals_StdLog
  fatals_Scanner @mails_sendEmailReport @fatals_sendEmailReport app_nil_r : process.

Section Process.
Context {schema : Schema} {gotext : GoText}.
Variable Config : Type.
Variable platform : Platform.t Config.

(** X13. The process ends in one of two ways.  It exits with code 1 after
    exactly one fatal line, and without having sent any mail, when the
    connection, the verification of access or the scan returns an error;
    otherwise [main] returns, without a fatal line. *)
Theorem X13_main_succeeds_or_exits :
  (snd (main platform) = Finished
   <-> exists clientset dynamicClient results,
         ConnectToCluster platform (config.Kubeconfig (loaded platform))
         = inl (clientset, dynamicClient)
         /\ Platform.NodesList platform clientset = None
         /\ value (ScanNamespaceResources clientset dynamicClient) = (results, None))
  /\ (snd (main platform) = Finished /\ fatals (fst (main platform)) = []
      \/ snd (main platform) = Exited 1
         /\ mails (fst (main platform)) = []
         /\ exists line, fatals (fst (main platform)) = [line]).
Proof.
  unfold main, loaded.
  destruct (config.LoadConfiguration (Platform.Environ platform)) as [lines cfg].
  cbn [snd].
  destruct (ConnectToCluster platform (config.Kubeconfig cfg))
    as [[clientset dynamicClient]|err].
  2:{ split.
      - split; [discriminate | intros (c & d & r & H & _); discriminate H].
      - right. cbn [Fatalf fst snd]. autorewrite with process. cbn. eauto. }
  unfold VerifyAccessToCluster.
  destruct (Platform.NodesList platform clientset) as [err|] eqn:Hnodes.
  { split.
    - split; [discriminate|].
      intros (c & d & r & H & Hn & _). injection H as <- <-. congruence.
    - right. cbn [Fatalf fst snd]. autorewrite with process. cbn. eauto. }
  destruct (ScanNamespaceResources clientset dynamicClient)
    as [scanning [results [err|]]] eqn:Hscan.
  { split.
    - split; [discriminate|].
      intros (c & d & r & H & _ & Hs). injection H as <- <-.
      rewrite Hscan in Hs. discriminate Hs.
    - right. cbn [Fatalf fst snd]. autorewrite with process. cbn. eauto. }
  split.
  - split; [intros _; exists clientset, dynamicClient, results; rewrite Hscan; auto|].
    intros _. destruct (Nat.ltb 0 (List.length results));
      [destruct (config.EmailReport cfg)|]; reflexivity.
  - left.
    destruct (Nat.ltb 0 (List.length results));
      [destruct (config.EmailReport cfg)|]; cbn [fst snd];
      autorewrite with process; split; reflexivity.
Qed.

(** X14. When the connection, the verification and the scan succeed, the
    process hands exactly one mail to the dialer if mail reports are enabled
    and the scan returned a finding, and none otherwise.  The mail goes to
    the configured server with the configured sender and recipient, and its
    body is the report of the findings.  A failure to send it does not make
    the process fail. *)
Theorem X14_one_mail_when_enabled_and_findings
    (clientset : Clientset.t) (dynamicClient : dynamic.Interface)
    (results : list ResourceCheckResult) :
  ConnectToCluster platform (config.Kubeconfig (loaded platform)) = inl (clientset, dynamicClient) ->
  Platform.NodesList platform clientset = None ->
  value (ScanNamespaceResources clientset dynamicClient) = (results, None) ->
  snd (main platform) = Finished
  /\ mails (fst (main platform))
     = match results with
       | [] => []
       | _ :: _ =>
           if config.EmailReport (loaded platform)
           then [ ( Dialer.mk (config.SmtpHost (loaded platform)) (config.SmtpPort (loaded platform))
                      (config.SmtpUser (loaded platform)) (config.SmtpPassword (loaded platform)),
                    Message.mk (config.SmtpFrom (loaded platform)) (config.SmtpTo (loaded platform))
                      "Daily Kubernetes Resource Report" "text/plain"
                      (generateReport results) ) ]
           else []
       end.
Proof.
  unfold main, loaded.
  destruct (config.LoadConfiguration (Platform.Environ platform)) as [lines cfg].
  cbn [snd]. intros -> Hnodes Hscan.
  unfold VerifyAccessToCluster. rewrite Hnodes.
  destruct (ScanNamespaceResources clientset dynamicClient) as [scanning returned].
  cbn [value snd] in Hscan. subst returned.
  destruct results as [|r rest]; cbn [List.length Nat.ltb Nat.leb];
    [|destruct (config.EmailReport cfg)]; cbn [fst snd];
    autorewrite with process; split; reflexivity.
Qed.

End Process.

(** ** The configuration and the logger *)

Lemma getEnvOrDefault_not_empty (environ : string -> option string)
    (key defaultValue : string) :
  defaultValue <> ""%string ->
  config.getEnvOrDefault environ key defaultValue <> ""%string.
Proof.
  intros Hd. unfold config.getEnvOrDefault.
  destruct (String.eqb_spec (Getenv environ key) ""); auto.
Qed.

Section Home.
Context {schema : Schema} {gotext : GoText}.
Variable Config : Type.
Variable platform : Platform.t Config.

Lemma LoadConfiguration_setenv_HOME (home : string) :
  config.LoadConfiguration (Platform.Environ (setenv platform "HOME" home))
  = config.LoadConfiguration (Platform.Environ platform).
Proof. reflexivity. Qed.

Lemma ConnectToCluster_setenv_HOME (home kubeconfig : string) :
  kubeconfig <> ""%string ->
  ConnectToCluster (setenv platform "HOME" home) kubeconfig
  = ConnectToCluster platform kubeconfig.
Proof.
  intros Hk. unfold ConnectToCluster. rewrite (eqb_empty_false Hk). reflexivity.
Qed.

(** X15. The process never reads HOME: the kubeconfig path that [main] hands
    to [ConnectToCluster] is never empty, so that the fallback to
    [.kube/config] under HOME is not reached, and a run is the same whatever
    HOME holds.  Without KUBECONFIG the path handed over is the text
    "~/.kube/config" as it stands. *)
Theorem X15_main_never_reads_HOME (home : string) :
  main (setenv platform "HOME" home) = main platform
  /\ config.Kubeconfig (loaded platform) <> ""%string
  /\ (Getenv (Platform.Environ platform) "KUBECONFIG" = ""%string ->
      config.Kubeconfig (loaded platform) = "~/.kube/config"%string).
Proof.
  assert (Hpath : config.Kubeconfig (loaded platform) <> ""%string).
  { unfold loaded, config.LoadConfiguration.
    repeat match goal with
           | |- context [config.parseEnvBool ?e ?k ?d] =>
               destruct (config.parseEnvBool e k d)
           | |- context [config.parseEnvInt ?e ?k ?d] =>
               destruct (config.parseEnvInt e k d)
           end.
    cbn [snd config.Kubeconfig]. now apply getEnvOrDefault_not_empty. }
  split; [|split].
  - unfold main. rewrite LoadConfiguration_setenv_HOME.
    unfold loaded in Hpath.
    destruct (config.LoadConfiguration (Platform.Environ platform)) as [lines cfg].
    cbn [snd] in Hpath. rewrite (ConnectToCluster_setenv_HOME home Hpath).
    reflexivity.
  - exact Hpath.
  - intros Hunset. unfold loaded, config.LoadConfiguration.
    repeat match goal with
           | |- context [config.parseEnvBool ?e ?k ?d] =>
               destruct (config.parseEnvBool e k d)
           | |- context [config.parseEnvInt ?e ?k ?d] =>
               destruct (config.parseEnvInt e k d)
           end.
    cbn [snd config.Kubeconfig]. unfold config.getEnvOrDefault. now rewrite Hunset.
Qed.

End Home.

Section Booleans.
Context {gotext : GoText}.

(** What the standard library guarantees of its two functions: [ParseBool]
    accepts its twelve literals only, and [ToLower] never returns one of the
    six of them that hold an upper-case letter. *)
Hypothesis ParseBool_literals : forall s b,
  ParseBool s = inl b ->
  In s ["1"; "t"; "T"; "TRUE"; "true"; "True";
        "0"; "f"; "F"; "FALSE"; "false"; "False"]%string.
Hypothesis ToLower_lower : forall s,
  ~ In (ToLower s) ["T"; "TRUE"; "True"; "F"; "FALSE"; "False"]%string.

(** X16. [parseEnvBool] answers by the lower-cased value alone: true for the
    six words of its first case, false for the six of its second case, and
    the default for a variable that is not set and for every other value.
    The call of [strconv.ParseBool] never decides: every value that reaches
    it is refused, and one line is printed. *)
Theorem X16_parseEnvBool_by_the_two_cases (environ : string -> option string)
    (key : string) (defaultValue : bool) :
  snd (config.parseEnvBool environ key defaultValue)
  = match environ key with
    | None => defaultValue
    | Some value =>
        if existsb (String.eqb (ToLower value)) config.truthy then true
        else if existsb (String.eqb (ToLower value)) config.falsy then false
        else defaultValue
    end
  /\ (forall value,
        environ key = Some value ->
        existsb (String.eqb (ToLower value)) config.truthy = false ->
        existsb (String.eqb (ToLower value)) config.falsy = false ->
        exists line, fst (config.parseEnvBool environ key defaultValue) = [line]).
Proof.
  unfold config.parseEnvBool.
  destruct (environ key) as [value|];
    [|split; [reflexivity | intros v Hv; discriminate Hv]].
  cbv zeta.
  assert (Hrefused : existsb (String.eqb (ToLower value)) config.truthy = false ->
                     existsb (String.eqb (ToLower value)) config.falsy = false ->
                     forall b, ParseBool (ToLower value) <> inl b).
  { intros Ht Hf b Hp. apply ParseBool_literals in Hp.
    pose proof (ToLower_lower value) as Hl. cbn [In] in Hp, Hl.
    repeat match type of Hp with
           | _ \/ _ => destruct Hp as [Hp|Hp]
           end;
      try contradiction;
      try (rewrite <- Hp in Ht; discriminate Ht);
      try (rewrite <- Hp in Hf; discriminate Hf);
      try (apply Hl; rewrite <- Hp; tauto). }
  split.
  - destruct (existsb (String.eqb (ToLower value)) config.truthy); [reflexivity|].
    destruct (existsb (String.eqb (ToLower value)) config.falsy); [reflexivity|].
    destruct (ParseBool (ToLower value)) as [b|err] eqn:Hp; [|reflexivity].
    now destruct (Hrefused eq_refl eq_refl b).
  - intros v Hv Ht Hf. injection Hv as <-. rewrite Ht, Hf.
    destruct (ParseBool (ToLower value)) as [b|err] eqn:Hp; [|cbn; eauto].
    now destruct (Hrefused Ht Hf b).
Qed.

End Booleans.

(** X17. When the logger is set up at the Debug level, on its first set-up,
    the configuration loaded from the same environment has its debug flag
    set, provided only that [ToLower] leaves the text "true" as it is.  The
    converse fails: see [debug_flag_without_debug_level]. *)
Theorem X17_debug_level_implies_debug_flag {gotext : GoText}
    (environ : string -> option string) :
  ToLower "true" = "true"%string ->
  logging.GetLevel (fst (logging.SetupLogging environ None)) = logging.DebugLevel ->
  config.Debug (snd (config.LoadConfiguration environ)) = true.
Proof.
  intros Hlower. unfold logging.SetupLogging. cbn [fst logging.GetLevel].
  destruct (String.eqb_spec (Getenv environ "DEBUG") "true") as [Hd|Hd];
    [intros _ | discriminate].
  unfold Getenv in Hd.
  destruct (environ "DEBUG"%string) as [value|] eqn:Hv; [|discriminate Hd]. subst value.
  unfold config.LoadConfiguration.
  assert (Hb : config.parseEnvBool environ "DEBUG" false = ([], true)).
  { unfold config.parseEnvBool. now rewrite Hv, Hlower. }
  rewrite Hb.
  repeat match goal with
         | |- context [config.parseEnvBool ?e ?k ?d] =>
             destruct (config.parseEnvBool e k d)
         | |- context [config.parseEnvInt ?e ?k ?d] =>
             destruct (config.parseEnvInt e k d)
         end.
  reflexivity.
Qed.

(** X18. The logger is set up once: after a first call of [SetupLogging],
    every later call returns the logger of the first call and leaves the
    package variable as it is, whatever the environment then holds; the
    level follows the value that DEBUG had at the first call. *)
Theorem X18_logger_is_set_up_once (environ1 environ2 : string -> option string)
    (logger : option logging.Logger) :
  logging.SetupLogging environ2 (snd (logging.SetupLogging environ1 logger))
  = logging.SetupLogging environ1 logger
  /\ snd (logging.SetupLogging environ1 logger)
     = Some (fst (logging.SetupLogging environ1 logger)).
Proof.
  unfold logging.SetupLogging. destruct logger; split; reflexivity.
Qed.

(** ** The properties on the sample surroundings *)

Lemma sample_catalog_wellFormed :
  wellFormed (schema := apimachinery) [core_v1; apps_v1].
Proof. repeat constructor; eexists; reflexivity. Defined.

Lemma X1_witness :
  value (GetClusterScopedResources (schema := apimachinery) sample_clientset)
  = inl [GroupVersionResource.mk "" "v1" "nodes"].
Proof.
  rewrite (X1_cluster_scoped_resources (schema := apimachinery) sample_clientset
             (catalog := [core_v1; apps_v1]) (err := None) eq_refl
             sample_catalog_wellFormed).
  reflexivity.
Defined.

Lemma filtering_clientset_filters :
  sameCatalog (fst (Clientset.ServerPreferredNamespacedResources filtering_clientset))
    (FilteredByNamespaced [core_v1; apps_v1]).
Proof. apply sameCatalog_swap. Defined.

Lemma X2_witness :
  exists namespaced clusterScoped,
    value (GetNamespaceScopedResources (schema := apimachinery) filtering_clientset)
    = inl namespaced
    /\ value (GetClusterScopedResources (schema := apimachinery) filtering_clientset)
       = inl clusterScoped
    /\ Permutation (namespaced ++ clusterScoped)
         (allTypes (schema := apimachinery) [core_v1; apps_v1]).
Proof.
  apply (X2_scopes_partition_the_catalog (schema := apimachinery) filtering_clientset
           (catalog := [core_v1; apps_v1]) eq_refl eq_refl
           filtering_clientset_filters sample_catalog_wellFormed).
Defined.

Lemma X3_witness :
  value (ScanNamespaceResources (schema := apimachinery) broken_clientset sample_dynamic)
  = ([], Some (error.mk
                 "error parsing GroupVersion a/b/c: unexpected GroupVersion string: a/b/c"
                 false)).
Proof.
  assert (Hgood : wellFormed (schema := apimachinery) [core_v1]).
  { repeat constructor; eexists; reflexivity. }
  assert (Hnone : forall e, @None error.t = Some e ->
                            error.IsGroupDiscoveryFailedError e = true).
  { intros e H. discriminate H. }
  apply (@X3_unparseable_groupVersion_aborts apimachinery
           broken_clientset sample_dynamic [core_v1] broken_group [apps_v1] None
           (error.mk "unexpected GroupVersion string: a/b/c" false)
           eq_refl Hnone Hgood eq_refl).
Defined.

Lemma X5_witness :
  exists objects resources,
    value (GetNamespacedObjects (schema := apimachinery) filtering_clientset)
    = inl objects
    /\ value (GetNamespaceScopedResources (schema := apimachinery) filtering_clientset)
       = inl resources
    /\ Permutation objects resources.
Proof.
  destruct (X5_catalog_functions_agree (schema := apimachinery) filtering_clientset
              (catalog := [core_v1; apps_v1]) eq_refl eq_refl
              filtering_clientset_filters sample_catalog_wellFormed)
    as (objects & resources & Hobjects & Hresources & Hperm & _).
  exists objects, resources. auto.
Defined.

Lemma X6_witness :
  (exists message,
      GetAPIVersionForResource (schema := apimachinery) sample_discovery
        (GroupVersionResource.mk "batch" "v1" "jobs") = Panicked message)
  /\ GetAPIVersionForResource (schema := apimachinery) sample_discovery
       (GroupVersionResource.mk "" "v1" "nodes")
     = GetAPIVersionForResource (schema := apimachinery) sample_discovery pods.
Proof.
  split.
  - apply (proj1 (X6_api_version_of_first_resource (schema := apimachinery)
                    sample_discovery (GroupVersionResource.mk "batch" "v1" "jobs"))).
    reflexivity.
  - apply (proj2 (X6_api_version_of_first_resource (schema := apimachinery)
                    sample_discovery pods));
      reflexivity.
Defined.

Lemma X7_witness :
  List.length
    (filter isRequery
       (trace (ScanNamespaceResources (schema := apimachinery) sample_clientset
                 sample_dynamic)))
  = 2 * 3.
Proof.
  apply (X7_one_requery_per_namespace_and_type (schema := apimachinery)
           sample_clientset sample_dynamic
           (resources := [pods; WithResource (GroupVersion.mk "" "v1") "bindings";
                          replicasets])
           (namespaces := ["app"; "kube-system"]%string));
    reflexivity.
Defined.

Lemma X8_witness :
  filter isListRequest
    (trace (ScanNamespaceResources (schema := apimachinery) sample_clientset
              sample_dynamic))
  = [ ReqList pods "app"; ReqList replicasets "app";
      ReqList pods "kube-system"; ReqList replicasets "kube-system" ].
Proof.
  rewrite (X8_list_requests_of_a_pass (schema := apimachinery)
             sample_clientset sample_dynamic
             (resources := [pods; WithResource (GroupVersion.mk "" "v1") "bindings";
                            replicasets])
             (namespaces := ["app"; "kube-system"]%string) eq_refl eq_refl).
  reflexivity.
Defined.

Lemma X9_witness :
  ConnectToCluster in_cluster "" = ConnectToCluster in_cluster "/etc/kubeconfig".
Proof.
  apply (X9_in_cluster_configuration_wins in_cluster in_cluster ""
           "/etc/kubeconfig" eq_refl eq_refl eq_refl
           (fun _ => eq_refl) (fun _ => eq_refl)).
Defined.

Lemma X10_witness :
  ConnectToCluster (workstation no_environ) ""
  = ConnectToCluster (workstation no_environ) "/.kube/config".
Proof.
  apply (proj1 (X10_kubeconfig_resolution (workstation no_environ) eq_refl)).
Defined.

Lemma X12_witness : [finding_a; finding_b] = [finding_a; finding_b].
Proof.
  assert (Hlines : Forall oneLineResult [finding_a; finding_b]).
  { repeat constructor; discriminate. }
  apply (X12_report_determines_findings Hlines Hlines eq_refl).
Defined.

Lemma X13_witness :
  snd (main (schema := apimachinery) (gotext := sample_gotext)
         (workstation mail_environ)) = Finished.
Proof.
  apply (proj1 (X13_main_succeeds_or_exits (schema := apimachinery)
                  (gotext := sample_gotext) (workstation mail_environ))).
  exists sample_clientset, sample_dynamic.
  eexists. repeat split.
Defined.

Lemma X14_witness :
  mails (fst (main (schema := apimachinery) (gotext := sample_gotext)
                (workstation mail_environ)))
  = [ ( Dialer.mk "" 25 "" "",
        Message.mk "" "ops@example.org" "Daily Kubernetes Resource Report"
          "text/plain"
          (generateReport
             (fst (value (ScanNamespaceResources (schema := apimachinery)
                            sample_clientset sample_dynamic)))) ) ].
Proof.
  destruct (@X14_one_mail_when_enabled_and_findings apimachinery sample_gotext unit
              (workstation mail_environ) sample_clientset sample_dynamic
              (fst (value (ScanNamespaceResources (schema := apimachinery)
                             sample_clientset sample_dynamic)))
              eq_refl eq_refl eq_refl) as [_ Hmails].
  rewrite Hmails. reflexivity.
Defined.

Lemma X15_witness :
  config.Kubeconfig (loaded (gotext := sample_gotext) (workstation no_environ))
  = "~/.kube/config"%string.
Proof.
  apply (proj2 (proj2 (X15_main_never_reads_HOME (schema := apimachinery)
                         (gotext := sample_gotext) (workstation no_environ) ""))).
  reflexivity.
Defined.

Lemma sample_ParseBool_literals (s : string) (b : bool) :
  sample_ParseBool s = inl b ->
  In s ["1"; "t"; "T"; "TRUE"; "true"; "True";
        "0"; "f"; "F"; "FALSE"; "false"; "False"]%string.
Proof.
  unfold sample_ParseBool.
  destruct (existsb _ ["1"; "t"; "T"; "TRUE"; "true"; "True"]%string) eqn:Ht.
  - intros _. apply existsb_exists in Ht. destruct Ht as (x & Hin & Heq).
    apply String.eqb_eq in Heq. subst x. cbn in *. tauto.
  - destruct (existsb _ ["0"; "f"; "F"; "FALSE"; "false"; "False"]%string) eqn:Hf;
      [|discriminate].
    intros _. apply existsb_exists in Hf. destruct Hf as (x & Hin & Heq).
    apply String.eqb_eq in Heq. subst x. cbn in *. tauto.
Defined.

Lemma lower_ascii_not_T_F (c : ascii) :
  lower_ascii c <> "T"%char /\ lower_ascii c <> "F"%char.
Proof.
  destruct c as [[] [] [] [] [] [] [] []]; split; intros H; vm_compute in H;
    discriminate H.
Defined.

Lemma sample_ToLower_lower (s : string) :
  ~ In (sample_ToLower s) ["T"; "TRUE"; "True"; "F"; "FALSE"; "False"]%string.
Proof.
  destruct s as [|c rest]; cbn [sample_ToLower In].
  - intros H. repeat destruct H as [H|H]; try discriminate H; exact H.
  - destruct (lower_ascii_not_T_F c) as [HT HF].
    intros H. repeat destruct H as [H|H]; try (injection H as H _; congruence).
    exact H.
Defined.

Lemma X16_witness :
  snd (config.parseEnvBool (gotext := sample_gotext) mail_environ "EMAIL_REPORT" false)
  = true
  /\ exists line,
       fst (config.parseEnvBool (gotext := sample_gotext)
              (fun _ => Some "maybe"%string) "RUN_ONCE" false) = [line].
Proof.
  split.
  - rewrite (proj1 (X16_parseEnvBool_by_the_two_cases (gotext := sample_gotext)
                      sample_ParseBool_literals sample_ToLower_lower
                      mail_environ "EMAIL_REPORT" false)).
    reflexivity.
  - apply (proj2 (X16_parseEnvBool_by_the_two_cases (gotext := sample_gotext)
                    sample_ParseBool_literals sample_ToLower_lower
                    (fun _ => Some "maybe"%string) "RUN_ONCE" false)
             "maybe"%string);
      reflexivity.
Defined.

Lemma X17_witness :
  config.Debug (snd (config.LoadConfiguration (gotext := sample_gotext) debug_environ))
  = true.
Proof.
  apply (X17_debug_level_implies_debug_flag (gotext := sample_gotext) debug_environ);
    reflexivity.
Defined.

(** With DEBUG=1 the configuration has its debug flag set and the logger
    stays at the Info level. *)
Example debug_flag_without_debug_level :
  config.Debug (snd (config.LoadConfiguration (gotext := sample_gotext) mail_environ))
  = true
  /\ logging.GetLevel (fst (logging.SetupLogging mail_environ None))
     = logging.InfoLevel.
Proof. split; reflexivity. Qed.

(** A finding with line breaks in a field can have the report of two
    findings. *)
Example report_of_a_finding_with_line_breaks :
  generateReport [finding_ab] = generateReport [finding_a; finding_b]
  /\ [finding_ab] <> [finding_a; finding_b].
Proof. split; [reflexivity | discriminate]. Qed.
